(** * ficore-finance: the budget pages

    A shallow embedding of the three budget components of the repository
    ([BudgetNew] and [BudgetManage] of [pages/budget/BudgetManage.tsx], and
    [BudgetDashboard]), with the properties of their event handlers.

    - [Number]: the values of the TypeScript type [number], IEEE-754 binary64,
      with the operations the pages use ([<=], [||], [parseFloat]).
    - [BudgetNew]: the form state, its editing handlers, [validateForm] and
      [handleSubmit].
    - [BudgetManage]: the budget list, [fetchBudgets], [handleDelete],
      [handleExportPdf] and what the page shows.
    - [BudgetDashboard]: the dashboard's fetch and its view selection.
    - [Aliasing]: the custom-category objects as heap cells, and the proof
      that the handlers on values describe what the handlers on cells do. *)

From Stdlib Require Import ZArith String Ascii List Bool SpecFloat.
From stdpp Require Import gmap strings list.

(** ** JavaScript numbers *)

Module Number.

Local Open Scope string_scope.

(** binary64: 53 bits of precision, infinities at exponent 1024 *)
Definition prec : Z := 53.
Definition emax : Z := 1024.

Definition number : Type := spec_float.

Definition NaN : number := S754_nan.
Definition Infinity : number := S754_infinity false.
Definition zero : number := S754_zero false.

(** [a <= b] of JavaScript: false as soon as one side is NaN *)
Definition le (a b : number) : bool := SFleb a b.
Definition lt (a b : number) : bool := SFltb a b.

Definition isNaN (n : number) : bool :=
  match n with S754_nan => true | _ => false end.

(** ToBoolean on a number: NaN, +0 and -0 are the falsy ones *)
Definition ToBoolean (n : number) : bool :=
  match n with
  | S754_nan | S754_zero _ => false
  | _ => true
  end.

(** [n || 0] *)
Definition or_zero (n : number) : number :=
  if ToBoolean n then n else zero.

(** The Number value of the decimal [(-1)^s * m * 10^e]: the binary64
    nearest to it, ties to even. An integer is rounded as the mantissa of a
    product is, a fraction as the quotient of a division is. *)
Definition of_decimal (s : bool) (m : Z) (e : Z) : number :=
  match m with
  | Z0 => S754_zero s
  | Zneg _ => S754_nan
  | Zpos p =>
      match e with
      | Z0 => binary_round prec emax s p 0
      | Zpos k => binary_round prec emax s (p * Pos.pow 10 k) 0
      | Zneg k =>
          let '(q, e', l) :=
            SFdiv_core_binary prec emax (Zpos p) 0 (Zpos (Pos.pow 10 k)) 0 in
          binary_round_aux prec emax s q e' l
      end
  end.

Definition of_Z (z : Z) : number :=
  of_decimal (z <? 0)%Z (Z.abs z) 0.

(** [n] is a datum of the binary64 format: a zero, an infinity, NaN, or
    [m * 2^e] with [m] below [2^53] and [e] from -1074 to 971, the mantissa
    of 53 bits unless [e] is -1074 *)
Definition is_binary64 (n : number) : bool := valid_binary prec emax n.

(** [fixed_point d n]: [n] is a whole number of units of [10^-d] *)
Definition fixed_point (d : positive) (n : number) : bool :=
  match n with
  | S754_zero _ => true
  | S754_finite _ m (Zneg k) => (Zpos (m * Pos.pow 10 d) mod Zpos (Pos.pow 2 k) =? 0)%Z
  | S754_finite _ _ _ => true
  | _ => false
  end.

(** [a + b] *)
Definition add (a b : number) : number := SFadd prec emax a b.

(** *** parseFloat *)

(** A text is the UTF-8 encoding of the string of the page.

    StrWhiteSpaceChar, the ones of one byte: TAB, LF, VT, FF, CR, SP *)
Definition is_space (c : ascii) : bool :=
  let n := nat_of_ascii c in
  ((9 <=? n) && (n <=? 13) || (n =? 32))%nat.

(** the one of two bytes: U+00A0 *)
Definition is_space2 (c1 c2 : ascii) : bool :=
  ((nat_of_ascii c1 =? 194) && (nat_of_ascii c2 =? 160))%nat.

(** the ones of three bytes: U+1680, U+2000 to U+200A, U+2028, U+2029,
    U+202F, U+205F, U+3000 and U+FEFF *)
Definition is_space3 (c1 c2 c3 : ascii) : bool :=
  let a := nat_of_ascii c1 in
  let b := nat_of_ascii c2 in
  let c := nat_of_ascii c3 in
  ((a =? 225) && (b =? 154) && (c =? 128)
   || (a =? 226) && (b =? 128)
      && ((128 <=? c) && (c <=? 138) || (c =? 168) || (c =? 169) || (c =? 175))
   || (a =? 226) && (b =? 129) && (c =? 159)
   || (a =? 227) && (b =? 128) && (c =? 128)
   || (a =? 239) && (b =? 187) && (c =? 191))%nat.

Definition digit_of (c : ascii) : option Z :=
  let n := nat_of_ascii c in
  if ((48 <=? n) && (n <=? 57))%nat then Some (Z.of_nat (n - 48)) else None.

Fixpoint skip_spaces (s : string) : string :=
  match s with
  | String c1 r1 =>
      if is_space c1 then skip_spaces r1
      else
        match r1 with
        | String c2 r2 =>
            if is_space2 c1 c2 then skip_spaces r2
            else
              match r2 with
              | String c3 r3 => if is_space3 c1 c2 c3 then skip_spaces r3 else s
              | EmptyString => s
              end
        | EmptyString => s
        end
  | EmptyString => s
  end.

(** DecimalDigits_opt at the head of [s]: the digits read so far as the
    integer [acc], their count, and the rest of the text. *)
Fixpoint digits (s : string) (acc : Z) (count : nat) : Z * nat * string :=
  match s with
  | String c r =>
      match digit_of c with
      | Some d => digits r (10 * acc + d)%Z (S count)
      | None => (acc, count, s)
      end
  | EmptyString => (acc, count, s)
  end.

(** ExponentPart_opt: [e] or [E], a sign, and at least one digit; a
    part that is not complete is not taken. *)
Definition exponent_part (s : string) : Z :=
  match s with
  | String c r =>
      if (c =? "e")%char || (c =? "E")%char then
        let '(neg, r') :=
          match r with
          | String "-" r' => (true, r')
          | String "+" r' => (false, r')
          | _ => (false, r)
          end in
        let '(x, n, _) := digits r' 0%Z 0%nat in
        match n with
        | O => 0%Z
        | S _ => if neg then (- x)%Z else x
        end
      else 0%Z
  | EmptyString => 0%Z
  end.

(** StrUnsignedDecimalLiteral at the head of [s], of sign [neg] *)
Definition unsigned_literal (neg : bool) (s : string) : number :=
  if String.prefix "Infinity" s then S754_infinity neg
  else
    let '(ip, ni, r1) := digits s 0%Z 0%nat in
    let '(m, nf, r2) :=
      match r1 with
      | String "." r => digits r ip 0%nat
      | _ => (ip, 0%nat, r1)
      end in
    match (ni + nf)%nat with
    | O => S754_nan
    | S _ => of_decimal neg m (exponent_part r2 - Z.of_nat nf)
    end.

Definition parseFloat (s : string) : number :=
  match skip_spaces s with
  | String "-" r => unsigned_literal true r
  | String "+" r => unsigned_literal false r
  | r => unsigned_literal false r
  end.

End Number.


(** ** Event handlers as state transformers

    A handler runs on the component's state and on the trace of the calls
    it makes to the outside (the API wrappers, the router). *)

Module React.

Section Handler.
Context {St Ev : Type}.

Definition handler (A : Type) : Type := St * list Ev -> A * (St * list Ev).

Definition ret {A} (a : A) : handler A := fun w => (a, w).

Definition bind {A B} (h : handler A) (k : A -> handler B) : handler B :=
  fun w => let '(a, w') := h w in k a w'.

(** the state as the handler's closure sees it *)
Definition useState : handler St := fun w => (fst w, w).

(** [setX(prev => f prev)] *)
Definition setState (f : St -> St) : handler unit :=
  fun w => (tt, (f (fst w), snd w)).

(** a call to the outside, recorded in the trace *)
Definition emit (e : Ev) : handler unit :=
  fun w => (tt, (fst w, snd w ++ [e])).

Definition run {A} (h : handler A) (st : St) : A * (St * list Ev) := h (st, []).
Definition state_after {A} (h : handler A) (st : St) : St := fst (snd (run h st)).
Definition trace_of {A} (h : handler A) (st : St) : list Ev := snd (snd (run h st)).
Definition result_of {A} (h : handler A) (st : St) : A := fst (run h st).
End Handler.

(** the outcome of [await p] *)
Inductive Awaited (A : Type) : Type :=
| Fulfilled (a : A)
| Rejected.
Arguments Fulfilled {A} a.
Arguments Rejected {A}.

(** the completion of a statement that may throw *)
Inductive Completion (A : Type) : Type :=
| Normal (a : A)
| TypeError.
Arguments Normal {A} a.
Arguments TypeError {A}.

End React.

#[global] Instance handler_ret {St Ev} : MRet (@React.handler St Ev) :=
  fun A a => React.ret a.
#[global] Instance handler_bind {St Ev} : MBind (@React.handler St Ev) :=
  fun A B k h => React.bind h k.

(** one statement after another: a throw ends the sequence *)
#[global] Instance Completion_bind : MBind React.Completion :=
  fun A B k c =>
    match c with
    | React.Normal a => k a
    | React.TypeError => React.TypeError
    end.


(** [Array.prototype.filter] with a callback on the element and its index *)
Fixpoint filter_from {A} (p : A -> nat -> bool) (i : nat) (l : list A) : list A :=
  match l with
  | [] => []
  | x :: r => if p x i then x :: filter_from p (S i) r else filter_from p (S i) r
  end.

Definition Array_filter {A} (p : A -> nat -> bool) (l : list A) : list A :=
  filter_from p 0 l.

(** [Object.keys] of an object used as a map *)
Definition Object_keys {V} (o : gmap string V) : list string := (map_to_list o).*1.

(** ** BudgetNew: the budget form *)

Module BudgetNew.
Import Number React.

Record CustomCategory : Type := { name : string; amount : number }.

Record FormData : Type := {
  income : number;
  housing : number;
  food : number;
  transport : number;
  dependents : number;
  miscellaneous : number;
  others : number;
  savings_goal : number;
  custom_categories : list CustomCategory;
}.

(** the state hooks of the component *)
Record State : Type := {
  formData : FormData;
  errors : gmap string (list string);
  showAlert : bool;
  alertMessage : string;
}.

Definition initialFormData : FormData :=
  {| income := zero; housing := zero; food := zero; transport := zero;
     dependents := zero; miscellaneous := zero; others := zero;
     savings_goal := zero; custom_categories := [] |}.

Definition initialState : State :=
  {| formData := initialFormData; errors := ∅; showAlert := false;
     alertMessage := EmptyString |}.

(** The [name] of the input that fired [onIonChange]: the income, the six
    standard expenses and the savings goal are the inputs bound to
    [handleInputChange]. *)
Inductive InputName : Type :=
| n_income | n_housing | n_food | n_transport | n_dependents
| n_miscellaneous | n_others | n_savings_goal.

#[global] Instance InputName_eq_dec : EqDecision InputName.
Proof. solve_decision. Defined.

Definition get (n : InputName) (fd : FormData) : number :=
  match n with
  | n_income => income fd | n_housing => housing fd | n_food => food fd
  | n_transport => transport fd | n_dependents => dependents fd
  | n_miscellaneous => miscellaneous fd | n_others => others fd
  | n_savings_goal => savings_goal fd
  end.

(** [{ ...prev, [name]: v }] *)
Definition set (n : InputName) (v : number) (prev : FormData) : FormData :=
  {| income := if n is n_income then v else income prev;
     housing := if n is n_housing then v else housing prev;
     food := if n is n_food then v else food prev;
     transport := if n is n_transport then v else transport prev;
     dependents := if n is n_dependents then v else dependents prev;
     miscellaneous := if n is n_miscellaneous then v else miscellaneous prev;
     others := if n is n_others then v else others prev;
     savings_goal := if n is n_savings_goal then v else savings_goal prev;
     custom_categories := custom_categories prev |}.

(** [{ ...prev, custom_categories: l }] *)
Definition set_custom_categories (l : list CustomCategory) (prev : FormData)
  : FormData :=
  {| income := income prev; housing := housing prev; food := food prev;
     transport := transport prev; dependents := dependents prev;
     miscellaneous := miscellaneous prev; others := others prev;
     savings_goal := savings_goal prev; custom_categories := l |}.

Definition setFormData (f : FormData -> FormData) (st : State) : State :=
  {| formData := f (formData st); errors := errors st;
     showAlert := showAlert st; alertMessage := alertMessage st |}.
Definition setErrors (e : gmap string (list string)) (st : State) : State :=
  {| formData := formData st; errors := e;
     showAlert := showAlert st; alertMessage := alertMessage st |}.
Definition setShowAlert (b : bool) (st : State) : State :=
  {| formData := formData st; errors := errors st;
     showAlert := b; alertMessage := alertMessage st |}.
Definition setAlertMessage (m : string) (st : State) : State :=
  {| formData := formData st; errors := errors st;
     showAlert := showAlert st; alertMessage := m |}.

(** *** The editing handlers

    A handler is the one of the current render: the [formData] of its
    closure is the state that [setFormData] updates. *)

Definition handleInputChange (name : InputName) (value : string)
  : FormData -> FormData :=
  fun prev => set name (or_zero (parseFloat value)) prev.

Definition addCustomCategory : FormData -> FormData :=
  fun prev =>
    set_custom_categories
      (custom_categories prev ++ [ {| name := EmptyString; amount := zero |} ]) prev.

Inductive CategoryField : Type := f_name | f_amount.

(** [cat[field] = field === 'amount' ? parseFloat(value) || 0 : value] *)
Definition assign (field : CategoryField) (value : string) (cat : CustomCategory)
  : CustomCategory :=
  match field with
  | f_amount => {| name := name cat; amount := or_zero (parseFloat value) |}
  | f_name => {| name := value; amount := amount cat |}
  end.

(** The [index] is a position of the rendered list. [updated[index]] is
    [undefined] beyond the end of the array, and the assignment to its field
    then throws before [setFormData] is reached. *)
Definition handleCustomCategoryChange (index : nat) (field : CategoryField)
    (value : string) (formData : FormData) : Completion FormData :=
  let updated := custom_categories formData in
  match updated !! index with
  | None => TypeError
  | Some cat =>
      Normal (set_custom_categories (<[index := assign field value cat]> updated)
                formData)
  end.

Definition removeCustomCategory (index : nat) (formData : FormData) : FormData :=
  let updated :=
    Array_filter (fun _ i => negb (i =? index)) (custom_categories formData) in
  set_custom_categories updated formData.

(** the form states that the handlers lead to *)
Inductive reachable : FormData -> Prop :=
| reach_initial : reachable initialFormData
| reach_input name value fd :
    reachable fd -> reachable (handleInputChange name value fd)
| reach_add fd :
    reachable fd -> reachable (addCustomCategory fd)
| reach_change index field value fd fd' :
    reachable fd ->
    handleCustomCategoryChange index field value fd = Normal fd' ->
    reachable fd'
| reach_remove index fd :
    reachable fd -> reachable (removeCustomCategory index fd).

(** no amount of the form is NaN *)
Definition numeric (fd : FormData) : Prop :=
  (forall n, isNaN (get n fd) = false) /\
  Forall (fun cat => isNaN (amount cat) = false) (custom_categories fd).

(** *** Validation and submission *)

(** The upper bound that the comment in [validateForm] names:
    [NumberRange(min=0, max=10000000000)]. *)
Definition MAX_AMOUNT : number := of_Z 10000000000.

Record Response : Type := {
  success : bool;
  response_errors : option (gmap string (list string));
}.

Inductive Call : Type :=
| call_postBudget (body : FormData)
| call_history_push (path : string).

Section WithEnvironment.
(** [t(key, { defaultValue })] of [utils/translations] *)
Variable t : string -> string -> string.
(** what [POST /budget/new] answers: a response object, [None] for a
    payload that is [null] *)
Variable server : FormData -> Awaited (option Response).

Definition postBudget (body : FormData)
  : handler (St:=State) (Awaited (option Response)) :=
  emit (call_postBudget body);; mret (server body).

Definition history_push (path : string) : handler (St:=State) unit :=
  emit (call_history_push path).

(** the message of the rule on the income *)
Definition income_required : string :=
  t "budget_income_required" "Income is required and must be positive".

Definition newErrors (formData : FormData) : gmap string (list string) :=
  if le (income formData) zero
  then <["income" :=
           [t "budget_income_required" "Income is required and must be positive"]]> ∅
  else ∅.

Definition validateForm : handler (Ev:=Call) bool :=
  st ← useState;
  let newErrors := newErrors (formData st) in
  setState (setErrors newErrors);;
  mret (length (Object_keys newErrors) =? 0).

Definition handleSubmit : handler unit :=
  st ← useState;
  ok ← validateForm;
  if negb ok then mret tt
  else
    let caught :=
      setState (setAlertMessage
        (t "budget_create_error" "Error creating budget. Please try again."));;
      setState (setShowAlert true) in
    r ← postBudget (formData st);
    match r with
    | Fulfilled (Some response) =>
        if success response then
          setState (setAlertMessage
            (t "budget_created_success" "Budget created successfully!"));;
          setState (setShowAlert true);;
          history_push "/budget/dashboard"
        else
          setState (setErrors (default ∅ (response_errors response)))
    | Fulfilled None => caught       (* [response.success] throws, in the [try] *)
    | Rejected => caught
    end.
End WithEnvironment.

#[global] Instance CategoryField_eq_dec : EqDecision CategoryField.
Proof. solve_decision. Defined.

(** *** What the page shows of the state *)

(** [errors.income && <IonLabel>{errors.income[0]}</IonLabel>]: no label
    without an entry; with one, a label of its first message, of nothing
    when the list is empty. *)
Definition income_label (st : State) : option (option string) :=
  head <$> errors st !! "income"%string.

(** [formData.custom_categories.map((cat, index) => ...)]: one row per
    entry, its two inputs and its button bound to [index]. *)
Definition custom_category_rows (fd : FormData) : list (nat * CustomCategory) :=
  imap (fun index cat => (index, cat)) (custom_categories fd).

End BudgetNew.

(** ** BudgetManage: the list of stored budgets *)

Module BudgetManage.
Import React.

(** a stored budget, with the fields the page reads *)
Record Budget : Type := { id : string; created_at : string }.

Record State : Type := {
  budgets : list Budget;
  loading : bool;
  showAlert : bool;
  alertMessage : string;
}.

Definition setBudgets (f : list Budget -> list Budget) (st : State) : State :=
  {| budgets := f (budgets st); loading := loading st;
     showAlert := showAlert st; alertMessage := alertMessage st |}.
Definition setShowAlert (b : bool) (st : State) : State :=
  {| budgets := budgets st; loading := loading st;
     showAlert := b; alertMessage := alertMessage st |}.
Definition setAlertMessage (m : string) (st : State) : State :=
  {| budgets := budgets st; loading := loading st;
     showAlert := showAlert st; alertMessage := m |}.

Record Response : Type := { success : bool }.

Inductive Call : Type :=
| call_deleteBudget (budgetId : string).

(** [response.success] of what a call answered, false for a call that throws *)
Definition succeeded (r : Awaited (option Response)) : bool :=
  match r with
  | Fulfilled (Some response) => success response
  | _ => false
  end.

Section WithEnvironment.
Variable t : string -> string -> string.
(** what [POST /budget/delete_budget] answers: a response object, [None]
    for a payload that is [null] *)
Variable server : string -> Awaited (option Response).

Definition deleteBudget (budgetId : string)
  : handler (St:=State) (Awaited (option Response)) :=
  emit (call_deleteBudget budgetId);; mret (server budgetId).

Definition handleDelete (budgetId : string) : handler unit :=
  let caught :=
    setState (setAlertMessage (t "budget_delete_error" "Error deleting budget"));;
    setState (setShowAlert true) in
  r ← deleteBudget budgetId;
  match r with
  | Fulfilled (Some response) =>
      if success response then
        setState (setBudgets (fun prev =>
          Array_filter (fun b _ => negb (String.eqb (id b) budgetId)) prev));;
        setState (setAlertMessage
          (t "budget_deleted" "Budget deleted successfully!"));;
        setState (setShowAlert true)
      else mret tt
  | Fulfilled None => caught         (* [response.success] throws, in the [try] *)
  | Rejected => caught
  end.
End WithEnvironment.

(** *** Loading the list, exporting, and the page *)

Definition setLoading (b : bool) (st : State) : State :=
  {| budgets := budgets st; loading := b;
     showAlert := showAlert st; alertMessage := alertMessage st |}.

Definition initialState : State :=
  {| budgets := []; loading := true; showAlert := false;
     alertMessage := EmptyString |}.

(** the payload of [GET /budget/manage]; [data.budgets] may be missing *)
Record BudgetsData : Type := { data_budgets : option (list Budget) }.

Inductive ExportType : Type := single | history.

Inductive PageCall : Type :=
| call_getBudgets
| call_exportBudgetPdf (type : ExportType) (budgetId : option string).

Section WithPage.
Variable t : string -> string -> string.
(** what [GET /budget/manage] answers, [None] for a payload that is [null] *)
Variable budgets_server : Awaited (option BudgetsData).
(** whether [GET /budget/export] answers; the blob is not used *)
Variable export_server : ExportType -> option string -> Awaited unit.

Definition getBudgets : handler (St:=State) (Awaited (option BudgetsData)) :=
  emit call_getBudgets;; mret budgets_server.

Definition exportBudgetPdf (type : ExportType) (budgetId : option string)
  : handler (St:=State) (Awaited unit) :=
  emit (call_exportBudgetPdf type budgetId);; mret (export_server type budgetId).

(** the effect that runs once the page is mounted *)
Definition fetchBudgets : handler unit :=
  let caught :=
    setState (setAlertMessage (t "budget_fetch_error" "Error fetching budgets"));;
    setState (setShowAlert true);;
    setState (setLoading false) in
  r ← getBudgets;
  match r with
  | Fulfilled (Some data) =>
      setState (setBudgets (fun _ => default [] (data_budgets data)));;
      setState (setLoading false)
  | Fulfilled None => caught         (* [data.budgets] throws, in the [try] *)
  | Rejected => caught
  end.

Definition handleExportPdf (type : ExportType) (budgetId : option string)
  : handler unit :=
  r ← exportBudgetPdf type budgetId;
  match r with
  | Fulfilled pdfBlob => mret tt
  | Rejected =>
      setState (setAlertMessage (t "budget_pdf_error" "Error generating PDF"));;
      setState (setShowAlert true)
  end.
End WithPage.

(** [onDidDismiss] of the alert *)
Definition onDidDismiss {Ev} : handler (St:=State) (Ev:=Ev) unit :=
  setState (setShowAlert false).

(** a row of the accordion: the label [Budget #{index + 1} - {created_at}],
    and the id that is its key and the argument of its two buttons *)
Record Row : Type := { number : nat; label_date : string; key : string }.

Inductive Body : Type :=
| BudgetList (count : nat) (rows : list Row)
| EmptyState.

Inductive View : Type :=
| Loading
| Page (body : Body) (alert : option string).

Definition render (st : State) : View :=
  if loading st then Loading
  else
    Page
      (if 0 <? length (budgets st) then
         BudgetList (length (budgets st))
           (imap (fun index budget =>
                    {| number := index + 1; label_date := created_at budget;
                       key := id budget |}) (budgets st))
       else EmptyState)
      (if showAlert st then Some (alertMessage st) else None).

End BudgetManage.

(** ** BudgetDashboard: the overview page *)

Module BudgetDashboard.
Import Number React.

(** A budget of the dashboard payload; a field that the object lacks
    reads as [undefined], here [None]. *)
Record Budget : Type := {
  id : option string;
  income : option number;
  created_at : option string;
  total_expenses : option number;
}.

(** the object [{}] *)
Definition empty_object : Budget :=
  {| id := None; income := None; created_at := None; total_expenses := None |}.

Record Category : Type := { label : string; value : number; color : string }.

Record DashboardData : Type := {
  latest_budget : option Budget;
  categories : option (list Category);
  budgets : option (list Budget);
  insights : option (list string);
  tips : option (list string);
}.

Record State : Type := {
  dashboardData : option DashboardData;   (* [null] until fetched *)
  loading : bool;
  error : string;
}.

Definition initialState : State :=
  {| dashboardData := None; loading := true; error := EmptyString |}.

Definition setDashboardData (d : option DashboardData) (st : State) : State :=
  {| dashboardData := d; loading := loading st; error := error st |}.
Definition setLoading (b : bool) (st : State) : State :=
  {| dashboardData := dashboardData st; loading := b; error := error st |}.
Definition setError (m : string) (st : State) : State :=
  {| dashboardData := dashboardData st; loading := loading st; error := m |}.

Inductive Call : Type := call_getBudgetDashboard.

(** ToBoolean on a string, and on a possibly undefined string *)
Definition truthy (s : string) : bool := negb (String.eqb s EmptyString).
Definition truthy_opt (s : option string) : bool :=
  match s with Some s => truthy s | None => false end.

(** what the component returns *)
Inductive View : Type :=
| Loading
| ErrorText (message : string)
| Overview (latestBudget : Budget) (chart : list Category) (history : list Budget)
| NoData.

Section WithEnvironment.
Variable t : string -> string -> string.
(** what [GET /budget/dashboard] answers; the payload may be [null] *)
Variable server : Awaited (option DashboardData).

Definition getBudgetDashboard : handler (St:=State) (Awaited (option DashboardData)) :=
  emit call_getBudgetDashboard;; mret server.

Definition fetchData : handler unit :=
  r ← getBudgetDashboard;
  match r with
  | Fulfilled data =>
      setState (setDashboardData data);;
      setState (setLoading false)
  | Rejected =>
      setState (setError (t "budget_fetch_error" "Error fetching dashboard data"));;
      setState (setLoading false)
  end.
End WithEnvironment.

(** The render function. Reading [latest_budget] of a [null] payload
    throws. *)
Definition render (st : State) : Completion View :=
  if loading st then Normal Loading
  else if truthy (error st) then Normal (ErrorText (error st))
  else
    match dashboardData st with
    | None => TypeError
    | Some dashboardData =>
        let latestBudget := default empty_object (latest_budget dashboardData) in
        let categories := default [] (categories dashboardData) in
        let budgets := default [] (budgets dashboardData) in
        if truthy_opt (id latestBudget)
        then Normal (Overview latestBudget categories budgets)
        else Normal NoData
    end.

End BudgetDashboard.

(** ** The aggregation behind the dashboard payload *)

Module Aggregator.
Import BudgetDashboard.

(** Modelled from the spec: the DashboardSummary of section 3, its latest
    budget and its history; the aggregation runs behind
    [GET /budget/dashboard] and is not part of the pages. *)
Record DashboardSummary : Type := {
  latestBudget : option Budget;
  history : list Budget;
}.

Section Aggregate.
(** [later a b]: [a] was created after [b] (a greater [createdAt], or the
    same and a greater [id]) *)
Variable later : Budget -> Budget -> bool.

(** Modelled from the spec: the entry with the maximum [createdAt], ties
    broken by the maximum [id] (section 4.4). *)
Definition newest (b : Budget) (l : list Budget) : Budget :=
  foldl (fun m x => if later x m then x else m) b l.

(** Modelled from the spec: the history, sorted by [createdAt] descending
    (section 4.4). *)
Fixpoint insert_desc (b : Budget) (l : list Budget) : list Budget :=
  match l with
  | [] => [b]
  | x :: r => if later b x then b :: l else x :: insert_desc b r
  end.

(** Modelled from the spec: [aggregate] of the BudgetHistoryAggregator
    (section 4.4): no latest budget for the empty input, else the newest
    budget and the sorted history. The metrics, insights and tips of the
    summary are left out. *)
Definition aggregate (budgets : list Budget) : DashboardSummary :=
  match budgets with
  | [] => {| latestBudget := None; history := [] |}
  | b :: r => {| latestBudget := Some (newest b r);
                 history := foldr insert_desc [] budgets |}
  end.
End Aggregate.

(** Modelled from the spec: the payload that carries a summary to the
    dashboard, an absent latest budget as an absent [latest_budget]. *)
Definition payload (s : DashboardSummary) : DashboardData :=
  {| latest_budget := latestBudget s;
     categories := None;
     budgets := Some (history s);
     insights := None;
     tips := None |}.

End Aggregator.

(** ** The custom categories as objects

    [handleCustomCategoryChange] copies the array and then assigns to a field
    of the object at [index]: the object is the one the previous array holds
    too. Here the array holds references and the objects live in a heap. *)

Module Aliasing.
Import Number React BudgetNew.

#[global] Instance CustomCategory_inhabited : Inhabited CustomCategory :=
  populate {| name := EmptyString; amount := zero |}.

Record Store : Type := {
  heap : gmap positive CustomCategory;
  array : list positive;               (* [formData.custom_categories] *)
}.

Definition initialStore : Store := {| heap := ∅; array := [] |}.

(** the array as the form shows it *)
Definition contents (h : gmap positive CustomCategory) (a : list positive)
  : list CustomCategory :=
  (fun r => h !!! r) <$> a.

Definition view (s : Store) : list CustomCategory := contents (heap s) (array s).

(** [[...prev.custom_categories, { name: '', amount: 0 }]]: the literal
    is a new object *)
Definition addCustomCategory (s : Store) : Store :=
  let r := fresh (dom (heap s)) in
  {| heap := <[r := {| name := EmptyString; amount := zero |}]> (heap s);
     array := array s ++ [r] |}.

(** [updated = [...custom_categories]; updated[index][field] = ...] *)
Definition handleCustomCategoryChange (index : nat) (field : CategoryField)
    (value : string) (s : Store) : Completion Store :=
  let updated := array s in
  match updated !! index with
  | None => TypeError
  | Some r =>
      Normal {| heap := alter (assign field value) r (heap s); array := updated |}
  end.

Definition removeCustomCategory (index : nat) (s : Store) : Store :=
  {| heap := heap s;
     array := Array_filter (fun _ i => negb (i =? index)) (array s) |}.

(** every cell of the array is allocated, and no two cells of the array
    are the same object *)
Definition wf (s : Store) : Prop :=
  NoDup (array s) ∧ ∀ r, r ∈ array s → is_Some (heap s !! r).

(** the store [s] holds the custom categories of the form [fd] *)
Definition holds (s : Store) (fd : FormData) : Prop :=
  wf s ∧ view s = custom_categories fd.

End Aliasing.

(** * Properties *)

(** ** Arrays *)

Section ArrayFacts.
Context {A : Type}.
Implicit Types l : list A.

Lemma filter_from_all (p : A -> nat -> bool) l k :
  (forall x j, k <= j -> p x j = true) -> filter_from p k l = l.
Proof.
  revert k. induction l as [|x r IH]; intros k Hp; simpl; [reflexivity|].
  rewrite Hp by lia. f_equal. apply IH. intros y j Hj. apply Hp. lia.
Qed.

(** dropping the index [i], counted from [k] *)
Lemma filter_from_delete l k i :
  filter_from (fun _ j => negb (j =? k + i)) k l = delete i l.
Proof.
  revert k i. induction l as [|x r IH]; intros k i; simpl.
  - by destruct i.
  - destruct i as [|i]; simpl.
    + replace (k + 0) with k by lia. rewrite Nat.eqb_refl. simpl.
      apply filter_from_all. intros _ j Hj.
      apply negb_true_iff, Nat.eqb_neq. lia.
    + destruct (Nat.eqb_spec k (k + S i)) as [E|_]; [lia|]. simpl.
      f_equal. replace (k + S i) with (S k + i) by lia. apply IH.
Qed.

Lemma Array_filter_delete l i :
  Array_filter (fun _ j => negb (j =? i)) l = delete i l.
Proof. apply (filter_from_delete l 0 i). Qed.

(** a callback that ignores the index *)
Lemma filter_from_elements (p : A -> bool) l k :
  filter_from (fun x _ => p x) k l = List.filter p l.
Proof.
  revert k. induction l as [|x r IH]; intros k; simpl; [reflexivity|].
  rewrite IH. reflexivity.
Qed.

Lemma Array_filter_elements (p : A -> bool) l :
  Array_filter (fun x _ => p x) l = List.filter p l.
Proof. apply filter_from_elements. Qed.
End ArrayFacts.

(** ** The binary64 format

    What the rounding of [of_decimal] gives is a datum of the format. *)

Module Binary64Facts.

Local Open Scope Z_scope.

Lemma Zdigits2_nonneg m : 0 <= Zdigits2 m.
Proof. destruct m; simpl; lia. Qed.

Lemma shr_1_digits mrs :
  0 <= shr_m mrs ->
  0 <= shr_m (shr_1 mrs) /\
  Zdigits2 (shr_m (shr_1 mrs)) = Z.max 0 (Zdigits2 (shr_m mrs) - 1).
Proof.
  destruct mrs as [m r s]. cbn [shr_m]. intros Hm.
  destruct m as [|[p|p|]|p]; cbn [shr_1 shr_m Zdigits2 digits2_pos];
    rewrite ?Pos2Z.inj_succ; lia.
Qed.

Lemma iter_pos_invariant {A} (f : A -> A) (I : Z -> A -> Prop) :
  (forall k x, 0 <= k -> I k x -> I (k + 1) (f x)) ->
  forall p k x, 0 <= k -> I k x -> I (k + Zpos p) (SpecFloat.iter_pos f p x).
Proof.
  intros Hstep. induction p as [p IH|p IH|]; intros k x Hk Hx; simpl.
  - replace (k + Zpos p~1) with ((k + 1) + Zpos p + Zpos p) by lia.
    apply IH; [lia|]. apply IH; [lia|]. now apply Hstep.
  - replace (k + Zpos p~0) with (k + Zpos p + Zpos p) by lia.
    apply IH; [lia|]. now apply IH.
  - now apply Hstep.
Qed.

Lemma shr_digits m r s p :
  0 <= m ->
  let mrs := SpecFloat.iter_pos shr_1 p (Build_shr_record m r s) in
  0 <= shr_m mrs /\ Zdigits2 (shr_m mrs) = Z.max 0 (Zdigits2 m - Zpos p).
Proof.
  intros Hm mrs.
  pose proof (iter_pos_invariant shr_1
    (fun k x => 0 <= shr_m x /\ Zdigits2 (shr_m x) = Z.max 0 (Zdigits2 m - k))) as H.
  apply (H) with (k := 0) (p := p) (x := Build_shr_record m r s).
  - intros k x Hk [Hx Hd]. destruct (shr_1_digits x Hx) as [Hx' Hd'].
    split; [exact Hx'|]. rewrite Hd', Hd. lia.
  - lia.
  - simpl. split; [exact Hm|]. pose proof (Zdigits2_nonneg m). lia.
Qed.

(** after the shift to the exponent of the format, the mantissa is at
    that exponent *)
Lemma shr_fexp_canonical m e l :
  0 <= m -> e <= fexp Number.prec Number.emax (Zdigits2 m + e) ->
  let '(mrs, e') := shr_fexp Number.prec Number.emax m e l in
  0 <= shr_m mrs /\ fexp Number.prec Number.emax (Zdigits2 (shr_m mrs) + e') = e'.
Proof.
  intros Hm He. unfold shr_fexp, shr.
  set (n := fexp Number.prec Number.emax (Zdigits2 m + e) - e).
  assert (Hn : n = fexp Number.prec Number.emax (Zdigits2 m + e) - e) by reflexivity.
  destruct n as [|p|p].
  - assert (Hsm : shr_m (shr_record_of_loc m l) = m) by (now destruct l as [|[]]).
    rewrite Hsm. split; [exact Hm|lia].
  - destruct (shr_record_of_loc m l) as [m0 r s] eqn:Hrec.
    assert (Hm0 : m0 = m) by (destruct l as [|[]]; simpl in Hrec; congruence).
    subst m0. destruct (shr_digits m r s p Hm) as [Hpos Hdig].
    split; [exact Hpos|]. rewrite Hdig.
    pose proof (Zdigits2_nonneg m).
    unfold fexp, emin, Number.prec, Number.emax in *. lia.
  - lia.
Qed.

Lemma digits2_pos_size p : digits2_pos p = Pos.size p.
Proof. induction p; simpl; congruence. Qed.

Lemma Zdigits2_log2 m : 0 < m -> Zdigits2 m = Z.log2 m + 1.
Proof.
  destruct m as [|[p|p|]|p]; try lia; intros _; cbn [Zdigits2 digits2_pos Z.log2];
    rewrite ?digits2_pos_size, ?Pos2Z.inj_succ; lia.
Qed.

Lemma Zdigits2_mono a b : 0 <= a <= b -> Zdigits2 a <= Zdigits2 b.
Proof.
  intros [Ha Hab]. destruct (Z.eq_dec a 0) as [->|Hne].
  - apply Zdigits2_nonneg.
  - rewrite !Zdigits2_log2 by lia.
    pose proof (Z.log2_le_mono a b Hab). lia.
Qed.

Lemma fexp_mono x y : x <= y -> fexp Number.prec Number.emax x <= fexp Number.prec Number.emax y.
Proof. unfold fexp, emin, Number.prec, Number.emax. lia. Qed.

Lemma round_nearest_even_bounds m l :
  m <= round_nearest_even m l <= m + 1.
Proof.
  unfold round_nearest_even. destruct l as [|[]]; try lia.
  destruct (Z.even m); lia.
Qed.

Lemma binary_round_aux_valid s m e l :
  0 <= m -> e <= fexp Number.prec Number.emax (Zdigits2 m + e) ->
  valid_binary Number.prec Number.emax (binary_round_aux Number.prec Number.emax s m e l) = true.
Proof.
  intros Hm He. unfold binary_round_aux.
  pose proof (shr_fexp_canonical m e l Hm He) as H1.
  destruct (shr_fexp Number.prec Number.emax m e l) as [mrs' e']. destruct H1 as [Hpos Hcan].
  set (m1 := round_nearest_even (shr_m mrs') (loc_of_shr_record mrs')).
  pose proof (round_nearest_even_bounds (shr_m mrs') (loc_of_shr_record mrs')) as Hb.
  fold m1 in Hb.
  assert (Hm1 : 0 <= m1) by lia.
  assert (He1 : e' <= fexp Number.prec Number.emax (Zdigits2 m1 + e')).
  { rewrite <- Hcan at 1. apply fexp_mono.
    pose proof (Zdigits2_mono (shr_m mrs') m1). lia. }
  pose proof (shr_fexp_canonical m1 e' loc_Exact Hm1 He1) as H2.
  destruct (shr_fexp Number.prec Number.emax m1 e' loc_Exact) as [mrs'' e'']. destruct H2 as [_ Hcan2].
  destruct (shr_m mrs'') as [|p|p]; try reflexivity.
  destruct (Z.leb_spec e'' (Number.emax - Number.prec)) as [Hle|Hgt]; [|reflexivity].
  cbn [valid_binary]. unfold bounded, canonical_mantissa.
  cbn [Zdigits2] in Hcan2. rewrite Hcan2, Z.eqb_refl. simpl.
  apply Z.leb_le. exact Hle.
Qed.

Lemma digits_iter_xO mx d :
  Zpos (digits2_pos (Pos.iter xO mx d)) = Zpos (digits2_pos mx) + Zpos d.
Proof.
  induction d as [|d IH] using Pos.peano_ind.
  - cbn [Pos.iter digits2_pos]. lia.
  - rewrite Pos.iter_succ. cbn [digits2_pos]. lia.
Qed.

Lemma binary_round_valid s mx ex :
  valid_binary Number.prec Number.emax (binary_round Number.prec Number.emax s mx ex) = true.
Proof.
  unfold binary_round, shl_align.
  set (ex' := fexp Number.prec Number.emax (Zpos (digits2_pos mx) + ex)).
  assert (Hex' : ex' = fexp Number.prec Number.emax (Zpos (digits2_pos mx) + ex)) by reflexivity.
  destruct (ex' - ex) as [|d|d] eqn:Hd;
    apply binary_round_aux_valid; try lia; cbn [Zdigits2].
  - lia.
  - lia.
  - rewrite digits_iter_xO.
    replace (Zpos (digits2_pos mx) + Zpos d + ex') with (Zpos (digits2_pos mx) + ex) by lia.
    lia.
Qed.

Lemma Zdigits2_bounds m :
  0 < m -> 2 ^ (Zdigits2 m - 1) <= m < 2 ^ Zdigits2 m.
Proof.
  intros Hm. rewrite Zdigits2_log2 by exact Hm.
  replace (Z.log2 m + 1 - 1) with (Z.log2 m) by lia.
  apply (Z.log2_spec m Hm).
Qed.

Lemma Zdigits2_lower m k : 0 <= k -> 2 ^ k <= m -> k + 1 <= Zdigits2 m.
Proof.
  intros Hk Hm. assert (0 < m) by (pose proof (Z.pow_pos_nonneg 2 k); lia).
  rewrite Zdigits2_log2 by lia.
  apply (Z.log2_le_pow2 m k) in Hm; lia.
Qed.

Lemma div_core_valid s p q :
  let '(m, e, l) := SFdiv_core_binary Number.prec Number.emax (Zpos p) 0 (Zpos q) 0 in
  valid_binary Number.prec Number.emax (binary_round_aux Number.prec Number.emax s m e l) = true.
Proof.
  unfold SFdiv_core_binary.
  set (d1 := Zdigits2 (Zpos p)). set (d2 := Zdigits2 (Zpos q)).
  set (e' := Z.min (fexp Number.prec Number.emax (d1 + 0 - (d2 + 0))) (0 - 0)).
  set (sh := 0 - 0 - e').
  set (m' := match sh with Zpos _ => Z.shiftl (Zpos p) sh | Z0 => Zpos p | Zneg _ => 0 end).
  destruct (Z.div_eucl m' (Zpos q)) as [quot r] eqn:Hdiv.
  assert (Hquot : quot = m' / Zpos q) by (unfold Z.div; now rewrite Hdiv).
  assert (Hsh : 0 <= sh) by (unfold sh, e'; lia).
  assert (Hm' : m' = Zpos p * 2 ^ sh).
  { unfold m'. destruct sh as [|k|k] eqn:E; [lia| |lia].
    now rewrite Z.shiftl_mul_pow2 by lia. }
  pose proof (Z.pow_pos_nonneg 2 sh ltac:(lia) Hsh) as Hpow.
  assert (Hq0 : 0 <= quot).
  { rewrite Hquot. apply Z.div_pos; lia. }
  apply binary_round_aux_valid; [exact Hq0|].
  destruct (Z_le_gt_dec e' (emin Number.prec Number.emax)) as [Hlow|Hhigh].
  { unfold fexp. lia. }
  assert (Hk : 52 <= d1 - 1 + sh - d2).
  { unfold sh, e', fexp, emin, Number.prec, Number.emax in *. lia. }
  set (k := d1 - 1 + sh - d2) in *.
  assert (Hbound : 2 ^ k <= quot).
  { rewrite Hquot. apply Z.div_le_lower_bound; [lia|].
    destruct (Zdigits2_bounds (Zpos p) ltac:(lia)) as [Hp _].
    destruct (Zdigits2_bounds (Zpos q) ltac:(lia)) as [_ Hq].
    fold d1 in Hp. fold d2 in Hq.
    pose proof (Zdigits2_nonneg (Zpos q)) as Hd2. fold d2 in Hd2.
    assert (Hd1 : 1 <= d1) by (unfold d1; cbn [Zdigits2]; lia).
    assert (Hsplit : 2 ^ (d1 - 1) * 2 ^ sh = 2 ^ k * 2 ^ d2).
    { rewrite <- !Z.pow_add_r by lia. f_equal. unfold k. lia. }
    pose proof (Z.pow_pos_nonneg 2 k ltac:(lia) ltac:(lia)) as Hpk.
    assert (H1 : Zpos q * 2 ^ k <= 2 ^ d2 * 2 ^ k)
      by (apply Z.mul_le_mono_nonneg_r; lia).
    assert (H2 : 2 ^ (d1 - 1) * 2 ^ sh <= Zpos p * 2 ^ sh)
      by (apply Z.mul_le_mono_nonneg_r; lia).
    rewrite Hm'. eapply Z.le_trans; [exact H1|].
    rewrite (Z.mul_comm (2 ^ d2)), <- Hsplit. exact H2. }
  pose proof (Zdigits2_lower quot k ltac:(lia) Hbound) as Hdig.
  unfold fexp, Number.prec. lia.
Qed.

Lemma of_decimal_valid s m e : Number.is_binary64 (Number.of_decimal s m e) = true.
Proof.
  unfold Number.is_binary64, Number.of_decimal.
  destruct m as [|p|p]; [reflexivity| |reflexivity].
  destruct e as [|k|k]; try apply binary_round_valid.
  pose proof (div_core_valid s p (10 ^ k)) as H.
  by destruct (SFdiv_core_binary _ _ _ _ _ _) as [[q e'] l].
Qed.

Lemma unsigned_literal_valid neg s :
  Number.is_binary64 (Number.unsigned_literal neg s) = true.
Proof.
  unfold Number.unsigned_literal.
  destruct (String.prefix _ _); [reflexivity|].
  destruct (Number.digits s 0 0) as [[ip ni] r1].
  match goal with
  | |- context [match ?x with pair _ _ => _ end] => destruct x as [[m nf] r2]
  end.
  destruct (ni + nf)%nat; [reflexivity|apply of_decimal_valid].
Qed.

(** whatever the text, [parseFloat] answers a datum of the format *)
Lemma parseFloat_valid s : Number.is_binary64 (Number.parseFloat s) = true.
Proof.
  unfold Number.parseFloat.
  destruct (Number.skip_spaces s) as [|c r]; [apply unsigned_literal_valid|].
  destruct c as [[] [] [] [] [] [] [] []]; apply unsigned_literal_valid.
Qed.

Lemma or_zero_valid n :
  Number.is_binary64 n = true -> Number.is_binary64 (Number.or_zero n) = true.
Proof. by destruct n. Qed.

End Binary64Facts.

(** ** Numbers *)

Module NumberFacts.
Import Number.

(** [n || 0] is never NaN *)
Lemma or_zero_not_NaN n : isNaN (or_zero n) = false.
Proof. by destruct n. Qed.

Lemma or_zero_NaN n : isNaN n = true -> or_zero n = zero.
Proof. by destruct n. Qed.

(** [n <= 0] holds of the zeros, of the negative numbers and of
    [-Infinity], and of nothing else *)
Lemma le_zero_spec n :
  le n zero =
    match n with
    | S754_zero _ => true
    | S754_infinity s | S754_finite s _ _ => s
    | S754_nan => false
    end.
Proof. by destruct n as [s|[]| |[] m e]. Qed.

Lemma parseFloat_examples :
  parseFloat "0" = zero /\
  parseFloat "-5" = of_Z (-5) /\
  parseFloat "0.01" = of_decimal false 1 (-2) /\
  parseFloat EmptyString = NaN /\
  parseFloat "abc" = NaN /\
  parseFloat "12abc" = of_Z 12 /\
  parseFloat "Infinity" = Infinity.
Proof. repeat split; reflexivity. Qed.
(** on these numbers 0.1 + 0.2 is not 0.3 *)
Lemma tenth_plus_fifth :
  add (parseFloat "0.1") (parseFloat "0.2") = parseFloat "0.30000000000000004" /\
  add (parseFloat "0.1") (parseFloat "0.2") <> parseFloat "0.3".
Proof.
  split; [reflexivity|]. intros H. vm_compute in H. discriminate H.
Qed.

End NumberFacts.

(** ** The budget form *)

Module BudgetNewFacts.
Import Number React BudgetNew NumberFacts.

Section WithEnvironment.
Variable t : string -> string -> string.

Lemma validateForm_run st :
  React.run (validateForm t) st =
    (length (Object_keys (newErrors t (formData st))) =? 0,
     (setErrors (newErrors t (formData st)) st, [])).
Proof. reflexivity. Qed.

Lemma Object_keys_newErrors fd :
  Object_keys (newErrors t fd) =
    if le (income fd) zero then ["income"%string] else [].
Proof.
  unfold newErrors, Object_keys. destruct (le (income fd) zero).
  - rewrite insert_empty, map_to_list_singleton. reflexivity.
  - rewrite map_to_list_empty. reflexivity.
Qed.

(** the result of [validateForm]: whether the income is positive *)
Lemma validateForm_result st :
  result_of (validateForm t) st = negb (le (income (formData st)) zero).
Proof.
  unfold result_of. rewrite validateForm_run. simpl.
  rewrite Object_keys_newErrors. by destruct (le _ _).
Qed.

Lemma validateForm_errors st :
  errors (state_after (validateForm t) st) = newErrors t (formData st).
Proof. reflexivity. Qed.

Lemma validateForm_formData st :
  formData (state_after (validateForm t) st) = formData st.
Proof. reflexivity. Qed.

Lemma newErrors_lookup fd field :
  newErrors t fd !! field =
    if le (income fd) zero
    then (if decide (field = "income"%string) then Some [income_required t] else None)
    else None.
Proof.
  unfold newErrors. destruct (le (income fd) zero).
  - destruct (decide (field = "income"%string)) as [->|Hne].
    + apply lookup_insert_eq.
    + rewrite lookup_insert_ne by congruence. apply lookup_empty.
  - apply lookup_empty.
Qed.
End WithEnvironment.


(** a form state whose income is [v] *)
Lemma income_setFormData v st :
  income (formData (setFormData (set n_income v) st)) = v.
Proof. reflexivity. Qed.

(** C1. Whatever the other fields of the form hold, validation rejects
    the incomes 0 and -5, each with an error recorded under the key
    [income], and accepts the income 0.01: [validateForm] returns true and
    the errors have no entry [income]. *)
Theorem validateForm_income_examples (t : string -> string -> string) (st : State) :
  let validated v := React.run (validateForm t) (setFormData (set n_income v) st) in
  let ok v := fst (validated v) in
  let errs v := errors (fst (snd (validated v))) in
  (ok (of_Z 0) = false /\ errs (of_Z 0) !! "income"%string = Some [income_required t]) /\
  (ok (of_Z (-5)) = false /\ errs (of_Z (-5)) !! "income"%string = Some [income_required t]) /\
  (ok (of_decimal false 1 (-2)) = true /\ errs (of_decimal false 1 (-2)) !! "income"%string = None).
Proof.
  intros validated ok errs. unfold ok, errs, validated.
  repeat split;
    first [ apply (validateForm_result t)
          | (change (errors (fst (snd (React.run (validateForm t) ?s))))
              with (errors (state_after (validateForm t) s));
             rewrite validateForm_errors, newErrors_lookup, income_setFormData;
             reflexivity) ].
Qed.

(** The shape of what validation answers: a mapping from field names to
    lists of messages, not empty exactly when validation fails, whose only
    key is [income], there exactly when the income is not above 0, whatever
    the other fields hold. The form data are left as they were. *)
Lemma validateForm_collects (t : string -> string -> string) (st : State) :
  let ok := result_of (validateForm t) st in
  let errs := errors (state_after (validateForm t) st) in
  (ok = false <-> errs <> ∅) /\
  (ok = false <-> exists field msg, errs !! field = Some [msg]) /\
  (forall field, is_Some (errs !! field) <->
                 field = "income"%string /\ le (income (formData st)) zero = true) /\
  (forall st', income (formData st') = income (formData st) ->
               errors (state_after (validateForm t) st') = errs) /\
  formData (state_after (validateForm t) st) = formData st.
Proof.
  intros ok errs. unfold ok, errs. clear ok errs.
  rewrite validateForm_result, validateForm_errors.
  assert (Hlook := newErrors_lookup t (formData st)).
  repeat split.
  - intros Hok Hempty. specialize (Hlook "income"%string).
    rewrite Hempty, lookup_empty in Hlook.
    apply negb_false_iff in Hok. rewrite Hok in Hlook. discriminate.
  - intros Hne. destruct (le (income (formData st)) zero) eqn:E; [reflexivity|].
    exfalso. apply Hne. apply map_eq. intros k. rewrite Hlook, lookup_empty. reflexivity.
  - intros Hok. exists "income"%string, (income_required t).
    rewrite Hlook. apply negb_false_iff in Hok. rewrite Hok. reflexivity.
  - intros (field & msg & H). rewrite Hlook in H.
    destruct (le (income (formData st)) zero); [reflexivity|discriminate].
  - rewrite Hlook in H. destruct (le _ _); [|by destruct H].
    destruct (decide (field = "income"%string)); [assumption|by destruct H].
  - rewrite Hlook in H. destruct (le _ _); [reflexivity|by destruct H].
  - intros [-> Hle]. rewrite Hlook, Hle. simpl. eauto.
  - intros st' Hsame. rewrite validateForm_errors. unfold newErrors.
    rewrite Hsame. reflexivity.
Qed.


(** C3 at a form with several violations: an income of 0, a housing
    expense of -3 and a savings goal of -1, whatever the rest of the state.
    Validation fails, and the mapping it yields has the entry of [income]
    and no other: the violations of the housing expense and of the savings
    goal are not collected. *)
Theorem validateForm_collects_income_only (t : string -> string -> string) (st : State) :
  let fd := set n_income (of_Z 0)
              (set n_housing (of_Z (-3)) (set n_savings_goal (of_Z (-1)) (formData st))) in
  let st0 := setFormData (fun _ => fd) st in
  le (housing fd) zero = true /\ housing fd <> zero /\
  le (savings_goal fd) zero = true /\ savings_goal fd <> zero /\
  result_of (validateForm t) st0 = false /\
  errors (state_after (validateForm t) st0) = {[ "income"%string := [income_required t] ]} /\
  Object_keys (errors (state_after (validateForm t) st0)) = ["income"%string] /\
  errors (state_after (validateForm t) st0) !! "housing"%string = None /\
  errors (state_after (validateForm t) st0) !! "savings_goal"%string = None.
Proof.
  intros fd st0.
  split; [reflexivity|]. split; [discriminate|].
  split; [reflexivity|]. split; [discriminate|].
  split; [apply validateForm_result|].
  rewrite validateForm_errors.
  assert (Herr : newErrors t (formData st0) = {[ "income"%string := [income_required t] ]}).
  { unfold newErrors. change (income (formData st0)) with (of_Z 0).
    change (le (of_Z 0) zero) with true. cbv iota. apply insert_empty. }
  rewrite Herr. split; [reflexivity|].
  split; [unfold Object_keys; by rewrite map_to_list_singleton|].
  split; by apply lookup_singleton_ne.
Qed.

(** that form is reached by typing the three amounts *)
Lemma several_violations_reachable fd :
  handleInputChange n_income "0"
    (handleInputChange n_housing "-3" (handleInputChange n_savings_goal "-1" fd))
  = set n_income (of_Z 0) (set n_housing (of_Z (-3)) (set n_savings_goal (of_Z (-1)) fd)).
Proof. reflexivity. Qed.

(** *** Submission *)

Lemma handleSubmit_run t server st :
  React.run (handleSubmit t server) st =
    let st1 := setErrors (newErrors t (formData st)) st in
    if le (income (formData st)) zero then (tt, (st1, []))
    else
      let posted := [call_postBudget (formData st)] in
      match server (formData st) with
      | Fulfilled (Some response) =>
          if success response then
            (tt, (setShowAlert true
                    (setAlertMessage
                       (t "budget_created_success" "Budget created successfully!") st1),
                  posted ++ [call_history_push "/budget/dashboard"]))
          else (tt, (setErrors (default ∅ (response_errors response)) st1, posted))
      | Fulfilled None | Rejected =>
          (tt, (setShowAlert true
                  (setAlertMessage
                     (t "budget_create_error" "Error creating budget. Please try again.")
                     st1),
                posted))
      end.
Proof.
  unfold React.run, handleSubmit, validateForm, postBudget, history_push.
  unfold mbind, handler_bind, mret, handler_ret, React.bind, React.ret,
    emit, setState, useState. simpl.
  rewrite Object_keys_newErrors.
  destruct (le (income (formData st)) zero); simpl; [reflexivity|].
  destruct (server (formData st)) as [[response|]|]; try reflexivity.
  destruct (success response); reflexivity.
Qed.

(** C8. A form that fails validation is not sent: [handleSubmit] returns
    having made no call at all, so [postBudget] is not invoked, and it
    leaves the form data as they were, with the errors of the validation. *)
Theorem invalid_form_never_posted t server (st : State) :
  result_of (validateForm t) st = false ->
  trace_of (handleSubmit t server) st = [] /\
  (forall body, call_postBudget body ∉ trace_of (handleSubmit t server) st) /\
  state_after (handleSubmit t server) st = state_after (validateForm t) st.
Proof.
  rewrite validateForm_result. intros Hle%negb_false_iff.
  unfold trace_of, state_after. rewrite handleSubmit_run, Hle. simpl.
  repeat split. intros body Hin. by apply not_elem_of_nil in Hin.
Qed.

Lemma invalid_form_never_posted_witness :
  let t := fun _ d : string => d in
  let server := fun _ : FormData => Fulfilled (Some {| success := true; response_errors := None |}) in
  result_of (validateForm t) initialState = false /\
  trace_of (handleSubmit t server) initialState = [].
Proof.
  split; [reflexivity|].
  apply (invalid_form_never_posted (fun _ d => d)
           (fun _ => Fulfilled (Some {| success := true; response_errors := None |}))
           initialState).
  reflexivity.
Defined.

(** A form that passes validation is sent, once, as it stands. *)
Lemma valid_form_posted t server (st : State) :
  result_of (validateForm t) st = true ->
  exists rest, trace_of (handleSubmit t server) st = call_postBudget (formData st) :: rest /\
               forall body, call_postBudget body ∉ rest.
Proof.
  rewrite validateForm_result. intros Hle%negb_true_iff.
  unfold trace_of. rewrite handleSubmit_run, Hle. simpl.
  destruct (server (formData st)) as [[response|]|]; [destruct (success response)| |]; simpl;
    eexists; (split; [reflexivity|]); intros body Hin;
    repeat match goal with
           | H : _ ∈ _ :: _ |- _ => apply elem_of_cons in H; destruct H as [H|H]; [discriminate|]
           | H : _ ∈ [] |- _ => by apply not_elem_of_nil in H
           end.
Qed.

(** *** What validation lets through *)

(** C5 at an income above the bound: 20000000000 exceeds [MAX_AMOUNT], yet
    [validateForm] returns true and records no error, for every state of the
    rest of the form. *)
Theorem validateForm_accepts_income_above_max (t : string -> string -> string) (st : State) :
  let st0 := setFormData (set n_income (of_Z 20000000000)) st in
  lt MAX_AMOUNT (of_Z 20000000000) = true /\
  result_of (validateForm t) st0 = true /\
  errors (state_after (validateForm t) st0) = ∅.
Proof.
  intros st0. split; [reflexivity|]. split.
  - apply validateForm_result.
  - rewrite validateForm_errors. reflexivity.
Qed.

(** typing 20000000000 as the income gives that form *)
Lemma income_above_max_reachable fd :
  handleInputChange n_income "20000000000" fd = set n_income (of_Z 20000000000) fd.
Proof. reflexivity. Qed.

(** the form with an income of 1000 and one custom category, of blank
    name and of amount -5 *)
Lemma blank_negative_category_reachable :
  match handleCustomCategoryChange 0 f_name "  "
          (addCustomCategory (handleInputChange n_income "1000" initialFormData))
  with
  | Normal fd => handleCustomCategoryChange 0 f_amount "-5" fd
  | TypeError => TypeError
  end
  = Normal (set_custom_categories [ {| name := "  "; amount := of_Z (-5) |} ]
              (set n_income (of_Z 1000) initialFormData)).
Proof. reflexivity. Qed.

(** C4 at a custom category of blank name and negative amount:
    [validateForm] returns true and records no error, and [handleSubmit]
    posts the form. *)
Theorem validateForm_accepts_bad_custom_category t server :
  let fd := set_custom_categories [ {| name := "  "; amount := of_Z (-5) |} ]
              (set n_income (of_Z 1000) initialFormData) in
  let st := setFormData (fun _ => fd) initialState in
  result_of (validateForm t) st = true /\
  errors (state_after (validateForm t) st) = ∅ /\
  exists rest, trace_of (handleSubmit t server) st = call_postBudget fd :: rest.
Proof.
  intros fd st. split; [apply validateForm_result|]. split; [reflexivity|].
  destruct (valid_form_posted t server st) as (rest & Hrest & _).
  - apply validateForm_result.
  - exists rest. exact Hrest.
Qed.

(** validation does not look at the custom categories at all *)
Lemma validateForm_ignores_custom_categories t l (st : State) :
  React.run (validateForm t) (setFormData (set_custom_categories l) st)
  = let '(ok, (st', tr)) := React.run (validateForm t) st in
    (ok, (setFormData (set_custom_categories l) st', tr)).
Proof. reflexivity. Qed.


(** *** Editing the form *)

Lemma get_set n m v fd :
  get m (set n v fd) = if decide (m = n) then v else get m fd.
Proof. destruct n, m; reflexivity. Qed.

Lemma get_set_custom_categories n l fd : get n (set_custom_categories l fd) = get n fd.
Proof. by destruct n. Qed.

Lemma handleInputChange_get n value prev :
  get n (handleInputChange n value prev) = or_zero (parseFloat value).
Proof. unfold handleInputChange. rewrite get_set. by case_decide. Qed.

(** the other fields and the custom categories stay *)
Lemma handleInputChange_frame n value prev :
  (forall m, m <> n -> get m (handleInputChange n value prev) = get m prev) /\
  custom_categories (handleInputChange n value prev) = custom_categories prev.
Proof.
  split; [|reflexivity]. intros m Hm. unfold handleInputChange.
  rewrite get_set. by case_decide.
Qed.

(** C7. Each input of the form starts at 0, the six standard expenses and
    the savings goal among them, and a text that does not parse as a
    number (on which [parseFloat] answers NaN) is taken as 0. *)
Theorem expense_fields_default_zero (n : InputName) (value : string) (prev : FormData) :
  isNaN (parseFloat value) = true ->
  get n initialFormData = zero /\
  get n (handleInputChange n value prev) = zero.
Proof.
  intros Hnan. split; [by destruct n|].
  rewrite handleInputChange_get. by apply or_zero_NaN.
Qed.

Lemma expense_fields_default_zero_witness :
  isNaN (parseFloat "abc") = true /\
  get n_housing initialFormData = zero /\
  get n_housing (handleInputChange n_housing "abc"
                   (handleInputChange n_housing "250" initialFormData)) = zero.
Proof.
  split; [reflexivity|].
  apply (expense_fields_default_zero n_housing "abc"
           (handleInputChange n_housing "250" initialFormData)).
  reflexivity.
Defined.

(** an input that was cleared *)
Lemma cleared_input_is_zero n prev :
  get n (handleInputChange n EmptyString prev) = zero.
Proof. by rewrite handleInputChange_get. Qed.

Lemma assign_spec field value cat :
  match field with
  | f_name => name (assign field value cat) = value /\
              amount (assign field value cat) = amount cat
  | f_amount => name (assign field value cat) = name cat /\
                amount (assign field value cat) = or_zero (parseFloat value)
  end.
Proof. by destruct field. Qed.

(** C10. [addCustomCategory] appends one entry, of empty name and amount
    0, after the entries there were; [removeCustomCategory i] takes out
    the entry at index [i] and keeps the others in their order;
    [handleCustomCategoryChange i field v] replaces the entry at index [i]
    by the same entry with [field] assigned, and throws when there is no
    such entry. None of them touches the numeric fields of the form. *)
Theorem custom_category_editing_frame (fd : FormData) :
  let l := custom_categories fd in
  (custom_categories (addCustomCategory fd)
     = l ++ [ {| name := EmptyString; amount := zero |} ] /\
   length (custom_categories (addCustomCategory fd)) = S (length l) /\
   take (length l) (custom_categories (addCustomCategory fd)) = l /\
   forall n, get n (addCustomCategory fd) = get n fd) /\
  (forall i,
     custom_categories (removeCustomCategory i fd) = take i l ++ drop (S i) l /\
     forall n, get n (removeCustomCategory i fd) = get n fd) /\
  (forall i field v,
     match l !! i with
     | Some cat =>
         handleCustomCategoryChange i field v fd
         = Normal (set_custom_categories
                     (take i l ++ assign field v cat :: drop (S i) l) fd)
     | None => handleCustomCategoryChange i field v fd = TypeError
     end) /\
  (forall field v cat,
     match field with
     | f_name => name (assign field v cat) = v /\
                 amount (assign field v cat) = amount cat
     | f_amount => name (assign field v cat) = name cat /\
                   amount (assign field v cat) = or_zero (parseFloat v)
     end).
Proof.
  intros l. split; [|split; [|split]].
  - split; [reflexivity|]. split; [|split].
    + unfold addCustomCategory. simpl. fold l. rewrite length_app. simpl. lia.
    + unfold addCustomCategory. simpl. fold l. by rewrite take_app_length.
    + intros n. apply get_set_custom_categories.
  - intros i. split.
    + unfold removeCustomCategory. simpl. fold l.
      rewrite Array_filter_delete. apply delete_take_drop.
    + intros n. apply get_set_custom_categories.
  - intros i field v. unfold handleCustomCategoryChange. fold l.
    destruct (l !! i) as [cat|] eqn:E; [|reflexivity].
    rewrite insert_take_drop by (by apply lookup_lt_Some in E). reflexivity.
  - intros field v cat. apply assign_spec.
Qed.

(** *** The representation of amounts *)

(** C2, against the claim. The income typed as 0.01 is kept as the
    binary64 number 5764607523034235 * 2^-59, which is not a whole number of
    hundredths: the amount is a binary floating-point number, not a
    fixed-point decimal. *)
Lemma money_is_not_fixed_point :
  let stored := income (handleInputChange n_income "0.01" initialFormData) in
  stored = S754_finite false 5764607523034235 (-59) /\
  fixed_point 2 stored = false.
Proof. split; reflexivity. Qed.

Lemma handleCustomCategoryChange_amount index value fd :
  match handleCustomCategoryChange index f_amount value fd with
  | Normal fd' =>
      amount <$> custom_categories fd' !! index = Some (or_zero (parseFloat value))
  | TypeError => custom_categories fd !! index = None
  end.
Proof.
  unfold handleCustomCategoryChange.
  destruct (custom_categories fd !! index) as [cat|] eqn:E; [|reflexivity].
  simpl. rewrite list_lookup_insert_eq by (by apply lookup_lt_Some in E).
  reflexivity.
Qed.

(** *** The forms that the handlers lead to *)

Lemma numeric_initial : numeric initialFormData.
Proof. split; [by intros []|constructor]. Qed.

(** In a form that the handlers lead to, no amount is NaN. *)
Lemma reachable_numeric fd : reachable fd -> numeric fd.
Proof.
  induction 1 as [|n value fd _ [IHn IHc]|fd _ [IHn IHc]
                 |index field value fd fd' _ [IHn IHc] Hchange
                 |index fd _ [IHn IHc]].
  - apply numeric_initial.
  - split; [|exact IHc]. intros m. unfold handleInputChange. rewrite get_set.
    case_decide; [apply or_zero_not_NaN|apply IHn].
  - unfold addCustomCategory.
    split; [intros m; rewrite get_set_custom_categories; apply IHn|].
    simpl. apply Forall_app. split; [exact IHc|].
    by repeat constructor.
  - unfold handleCustomCategoryChange in Hchange.
    destruct (custom_categories fd !! index) as [cat|] eqn:E; [|discriminate].
    injection Hchange as <-.
    split; [intros m; rewrite get_set_custom_categories; apply IHn|]. simpl.
    apply Forall_insert; [exact IHc|].
    destruct field; simpl; [|apply or_zero_not_NaN].
    by eapply (proj1 (Forall_lookup _ _) IHc).
  - unfold removeCustomCategory.
    split; [intros m; rewrite get_set_custom_categories; apply IHn|].
    simpl. rewrite Array_filter_delete. by apply Forall_delete.
Qed.

(** what holds of 0 and of every [parseFloat(value) || 0] holds of every
    amount of a form that the handlers lead to *)
Lemma reachable_amounts (P : number -> Prop) fd :
  P zero -> (forall value, P (or_zero (parseFloat value))) ->
  reachable fd ->
  (forall n, P (get n fd)) /\ Forall (fun cat => P (amount cat)) (custom_categories fd).
Proof.
  intros Hzero Hstored.
  induction 1 as [|n value fd _ [IHn IHc]|fd _ [IHn IHc]
                 |index field value fd fd' _ [IHn IHc] Hchange
                 |index fd _ [IHn IHc]].
  - split; [by intros []|constructor].
  - split; [|exact IHc]. intros m. unfold handleInputChange. rewrite get_set.
    case_decide; [apply Hstored|apply IHn].
  - unfold addCustomCategory.
    split; [intros m; rewrite get_set_custom_categories; apply IHn|].
    simpl. apply Forall_app. split; [exact IHc|]. by repeat constructor.
  - unfold handleCustomCategoryChange in Hchange.
    destruct (custom_categories fd !! index) as [cat|] eqn:E; [|discriminate].
    injection Hchange as <-.
    split; [intros m; rewrite get_set_custom_categories; apply IHn|]. simpl.
    apply Forall_insert; [exact IHc|].
    destruct field; simpl; [|apply Hstored].
    by eapply (proj1 (Forall_lookup _ _) IHc).
  - unfold removeCustomCategory.
    split; [intros m; rewrite get_set_custom_categories; apply IHn|].
    simpl. rewrite Array_filter_delete. by apply Forall_delete.
Qed.

(** C2, amended. Every amount of the form is a JavaScript number, a binary
    floating-point value: in a form that the handlers lead to from the
    initial one, the income, each expense, the savings goal and the amount of
    each custom category are data of the binary64 format and are not NaN.
    The comparison [income <= 0] of the validation is decided on that
    number, by its sign. The amount typed as 12.75 is kept as a whole number
    of hundredths, the one typed as 0.01 is not. *)
Theorem money_is_binary64 (fd : FormData) :
  reachable fd ->
  (forall n, is_binary64 (get n fd) = true /\ isNaN (get n fd) = false) /\
  Forall (fun cat => is_binary64 (amount cat) = true /\ isNaN (amount cat) = false)
    (custom_categories fd) /\
  le (income fd) zero =
    match income fd with
    | S754_zero _ => true
    | S754_infinity s | S754_finite s _ _ => s
    | S754_nan => false
    end /\
  fixed_point 2 (get n_housing (handleInputChange n_housing "12.75" fd)) = true /\
  fixed_point 2 (get n_housing (handleInputChange n_housing "0.01" fd)) = false.
Proof.
  intros Hreach.
  destruct (reachable_amounts
              (fun x => is_binary64 x = true /\ isNaN x = false) fd) as [Hn Hc].
  - by split.
  - intros value. split; [|apply or_zero_not_NaN].
    apply Binary64Facts.or_zero_valid, Binary64Facts.parseFloat_valid.
  - exact Hreach.
  - split; [exact Hn|]. split; [exact Hc|]. split; [apply le_zero_spec|].
    rewrite !handleInputChange_get. split; reflexivity.
Qed.

Lemma money_is_binary64_witness :
  let fd := addCustomCategory (handleInputChange n_income "0.01" initialFormData) in
  reachable fd /\
  is_binary64 (income fd) = true /\ isNaN (income fd) = false.
Proof.
  split; [apply reach_add, reach_input, reach_initial|].
  apply (money_is_binary64
           (addCustomCategory (handleInputChange n_income "0.01" initialFormData))).
  apply reach_add, reach_input, reach_initial.
Defined.

End BudgetNewFacts.

(** ** The budget list *)

Module BudgetManageFacts.
Import React BudgetManage.

(** the callback [b => b.id !== budgetId], as stdpp's filter *)
Lemma filter_other_ids budgetId (l : list Budget) :
  Array_filter (fun b _ => negb (String.eqb (id b) budgetId)) l
  = filter (fun b => id b <> budgetId) l.
Proof.
  rewrite Array_filter_elements.
  induction l as [|b r IH]; simpl; [reflexivity|].
  rewrite filter_cons, <- IH.
  destruct (String.eqb_spec (id b) budgetId) as [E|E]; simpl;
    case_decide; congruence.
Qed.

Lemma handleDelete_run t server budgetId st :
  React.run (handleDelete t server budgetId) st =
    let called := [call_deleteBudget budgetId] in
    match server budgetId with
    | Fulfilled (Some response) =>
        if success response then
          (tt, (setShowAlert true
                  (setAlertMessage (t "budget_deleted" "Budget deleted successfully!")
                     (setBudgets (filter (fun b => id b <> budgetId)) st)),
                called))
        else (tt, (st, called))
    | Fulfilled None | Rejected =>
        (tt, (setShowAlert true
                (setAlertMessage (t "budget_delete_error" "Error deleting budget") st),
              called))
    end.
Proof.
  unfold React.run, handleDelete, deleteBudget.
  unfold mbind, handler_bind, mret, handler_ret, React.bind, React.ret,
    emit, setState. simpl.
  destruct (server budgetId) as [[response|]|]; try reflexivity.
  destruct (success response); [|reflexivity].
  unfold setBudgets. rewrite <- filter_other_ids. reflexivity.
Qed.

(** C9. When the server reports success, [handleDelete] leaves in the
    list the entries whose id is not [budgetId], as they were and in their
    order, and none whose id is [budgetId]; when it reports no success, or
    the call throws (a rejected request, a response that is [null]), the
    list is the one it was. *)
Theorem handleDelete_frame t server (budgetId : string) (st : State) :
  let after := budgets (state_after (handleDelete t server budgetId) st) in
  match server budgetId with
  | Fulfilled (Some {| success := true |}) =>
      after = filter (fun b => id b <> budgetId) (budgets st) /\
      filter (fun b => id b = budgetId) after = [] /\
      filter (fun b => id b <> budgetId) after
        = filter (fun b => id b <> budgetId) (budgets st) /\
      sublist after (budgets st) /\
      length (budgets st)
        = length after + length (filter (fun b => id b = budgetId) (budgets st))
  | Fulfilled (Some {| success := false |}) | Fulfilled None | Rejected =>
      after = budgets st
  end.
Proof.
  intros after. unfold after, state_after. clear after.
  rewrite handleDelete_run. simpl.
  destruct (server budgetId) as [[[[]]|]|]; simpl; try reflexivity.
  set (l := budgets st).
  split; [reflexivity|]. split; [|split; [|split]].
  - rewrite list_filter_filter. induction l as [|b r IH]; [reflexivity|].
    rewrite filter_cons. case_decide as H; [by destruct H|exact IH].
  - rewrite list_filter_filter. apply list_filter_iff. tauto.
  - apply sublist_filter.
  - induction l as [|b r IH]; [reflexivity|].
    rewrite !filter_cons. simpl.
    destruct (decide (id b = budgetId)); case_decide; simpl; try congruence; lia.
Qed.

End BudgetManageFacts.

(** ** The dashboard *)

Module BudgetDashboardFacts.
Import React BudgetDashboard Aggregator.

Lemma fetchData_fulfilled t data st :
  state_after (fetchData t (Fulfilled data)) st
  = setLoading false (setDashboardData data st).
Proof. reflexivity. Qed.

(** a payload without a latest budget: the page of the first visit *)
Lemma render_without_latest_budget (d : DashboardData) t st :
  latest_budget d = None ->
  truthy (error st) = false ->
  render (state_after (fetchData t (Fulfilled (Some d))) st) = Normal NoData.
Proof.
  intros Hnone Herr. rewrite fetchData_fulfilled. unfold render. simpl.
  rewrite Herr, Hnone. reflexivity.
Qed.

(** C6. The summary of no budgets has no latest budget and no history;
    once fetched, the dashboard shows it as the "no budget data" card with
    the button to the first budget: not the loading text, not an error text,
    and the render does not throw. *)
Theorem empty_history_is_no_data later t :
  let summary := aggregate later [] in
  let st := state_after (fetchData t (Fulfilled (Some (payload summary)))) initialState in
  latestBudget summary = None /\
  history summary = [] /\
  error st = EmptyString /\
  render st = Normal NoData.
Proof. repeat split. Qed.

End BudgetDashboardFacts.

(** ** The values describe the objects *)

Module AliasingFacts.
Import Number React BudgetNew.

Lemma contents_ext (h1 h2 : gmap positive CustomCategory) (a : list positive) :
  (forall r, r ∈ a -> h1 !!! r = h2 !!! r) ->
  Aliasing.contents h1 a = Aliasing.contents h2 a.
Proof.
  intros H. apply list_fmap_ext. intros i r Hi. apply H.
  by apply list_elem_of_lookup_2 in Hi.
Qed.

Lemma alter_total (f : CustomCategory -> CustomCategory)
    (h : gmap positive CustomCategory) r :
  is_Some (h !! r) -> alter f r h !!! r = f (h !!! r).
Proof.
  intros [c Hc]. rewrite lookup_total_alter_eq, Hc. simpl.
  by rewrite (lookup_total_correct _ _ _ Hc).
Qed.

Lemma contents_lookup h (a : list positive) i :
  Aliasing.contents h a !! i = (fun r => h !!! r) <$> (a !! i).
Proof. apply list_lookup_fmap. Qed.

Lemma holds_initial : Aliasing.holds Aliasing.initialStore initialFormData.
Proof.
  split; [|reflexivity]. split; [constructor|].
  intros r Hr. by apply not_elem_of_nil in Hr.
Qed.

Lemma holds_handleInputChange s fd n value :
  Aliasing.holds s fd -> Aliasing.holds s (handleInputChange n value fd).
Proof. intros [Hwf Hview]. split; [exact Hwf|exact Hview]. Qed.

Lemma fresh_not_in_array s :
  Aliasing.wf s -> fresh (dom (Aliasing.heap s)) ∉ Aliasing.array s.
Proof.
  intros [_ Halloc] Hin. apply Halloc, elem_of_dom in Hin.
  by apply is_fresh in Hin.
Qed.

Lemma holds_addCustomCategory s fd :
  Aliasing.holds s fd -> Aliasing.holds (Aliasing.addCustomCategory s) (addCustomCategory fd).
Proof.
  intros [Hwf Hview]. pose proof (fresh_not_in_array s Hwf) as Hfresh.
  destruct Hwf as [Hnodup Halloc].
  unfold Aliasing.addCustomCategory. set (r := fresh (dom (Aliasing.heap s))) in *.
  split; [split|]; simpl.
  - apply NoDup_app. split; [exact Hnodup|]. split; [|apply NoDup_singleton].
    intros x Hx Hx'. apply list_elem_of_singleton in Hx'. by subst x.
  - intros x Hx. apply elem_of_app in Hx as [Hx|Hx].
    + destruct (decide (x = r)) as [->|Hne]; [by destruct Hfresh|].
      rewrite lookup_insert_ne by congruence. by apply Halloc.
    + apply list_elem_of_singleton in Hx. subst x. rewrite lookup_insert_eq. eauto.
  - unfold Aliasing.view, Aliasing.contents. simpl.
    rewrite fmap_app. simpl. rewrite lookup_total_insert_eq.
    rewrite <- Hview. f_equal. apply contents_ext. intros x Hx.
    apply lookup_total_insert_ne. intros ->. by destruct Hfresh.
Qed.

Lemma holds_removeCustomCategory s fd index :
  Aliasing.holds s fd ->
  Aliasing.holds (Aliasing.removeCustomCategory index s) (removeCustomCategory index fd).
Proof.
  intros [[Hnodup Halloc] Hview].
  unfold Aliasing.removeCustomCategory, removeCustomCategory.
  split; [split|]; simpl; rewrite ?Array_filter_delete.
  - eapply sublist_NoDup; [exact Hnodup|apply sublist_delete].
  - intros r Hr. apply Halloc. by apply list_elem_of_delete_inv in Hr.
  - unfold Aliasing.view, Aliasing.contents. simpl.
    rewrite list_fmap_delete. by rewrite <- Hview.
Qed.

(** Assigning to the object at [index] shows at that index of the array
    and nowhere else, since no other index holds the same object. *)
Lemma holds_handleCustomCategoryChange s fd index field value :
  Aliasing.holds s fd ->
  match Aliasing.handleCustomCategoryChange index field value s,
        handleCustomCategoryChange index field value fd with
  | Normal s', Normal fd' => Aliasing.holds s' fd'
  | TypeError, TypeError => True
  | _, _ => False
  end.
Proof.
  intros [[Hnodup Halloc] Hview].
  unfold Aliasing.handleCustomCategoryChange, handleCustomCategoryChange.
  rewrite <- Hview. unfold Aliasing.view. rewrite contents_lookup.
  destruct (Aliasing.array s !! index) as [r|] eqn:Hr; simpl; [|exact I].
  split; [split|]; simpl.
  - exact Hnodup.
  - intros x Hx. apply lookup_alter_is_Some. by apply Halloc.
  - unfold Aliasing.view. simpl. apply list_eq. intros j.
    rewrite contents_lookup.
    destruct (decide (j = index)) as [->|Hne].
    + rewrite Hr. simpl.
      rewrite alter_total by (eapply Halloc, list_elem_of_lookup_2, Hr).
      rewrite list_lookup_insert_eq; [reflexivity|].
      unfold Aliasing.contents. rewrite length_fmap. by apply lookup_lt_Some in Hr.
    + rewrite list_lookup_insert_ne by congruence. rewrite contents_lookup.
      destruct (Aliasing.array s !! j) as [x|] eqn:Hx; [|reflexivity]. simpl.
      f_equal. apply lookup_total_alter_ne. intros ->.
      apply Hne. symmetry. eapply NoDup_lookup; eauto.
Qed.

(** Every form that the handlers lead to is held by a store: what is
    proved of the values is true of the objects. *)
Lemma reachable_holds fd : reachable fd -> exists s, Aliasing.holds s fd.
Proof.
  induction 1 as [|n value fd _ [s IH]|fd _ [s IH]
                 |index field value fd fd' _ [s IH] Hchange
                 |index fd _ [s IH]].
  - exists Aliasing.initialStore. apply holds_initial.
  - exists s. by apply holds_handleInputChange.
  - exists (Aliasing.addCustomCategory s). by apply holds_addCustomCategory.
  - pose proof (holds_handleCustomCategoryChange s fd index field value IH) as H.
    rewrite Hchange in H.
    destruct (Aliasing.handleCustomCategoryChange index field value s) as [s'|];
      [by exists s'|contradiction].
  - exists (Aliasing.removeCustomCategory index s).
    by apply holds_removeCustomCategory.
Qed.

(** X18. The array of the render before still holds the object that was
    assigned to: the change of a custom category shows in the list of the
    previous state as well, which is not the list it was. *)
Lemma assignment_shows_in_previous_array s index field value r :
  Aliasing.array s !! index = Some r ->
  is_Some (Aliasing.heap s !! r) ->
  match Aliasing.handleCustomCategoryChange index field value s with
  | Normal s' =>
      Aliasing.contents (Aliasing.heap s') (Aliasing.array s) !! index
      = Some (assign field value (Aliasing.heap s !!! r))
  | TypeError => False
  end.
Proof.
  intros Hr Hsome. unfold Aliasing.handleCustomCategoryChange. rewrite Hr. simpl.
  rewrite contents_lookup, Hr. simpl. by rewrite alter_total.
Qed.

End AliasingFacts.


(** ** The budget form: editing, validation and submission together *)

Module BudgetNewExtra.
Import Number React BudgetNew NumberFacts BudgetNewFacts.

Lemma FormData_eta fd :
  fd = {| income := income fd; housing := housing fd; food := food fd;
          transport := transport fd; dependents := dependents fd;
          miscellaneous := miscellaneous fd; others := others fd;
          savings_goal := savings_goal fd;
          custom_categories := custom_categories fd |}.
Proof. by destruct fd. Qed.

(** X1. [handleInputChange] writes the field of its input and nothing
    else; of two changes of one field the later one stands, and changes of
    two fields can be made in either order. *)
Theorem handleInputChange_composes (n m k : InputName) (v w : string) (fd : FormData) :
  get k (handleInputChange n v fd)
    = (if decide (k = n) then or_zero (parseFloat v) else get k fd) /\
  custom_categories (handleInputChange n v fd) = custom_categories fd /\
  handleInputChange m w (handleInputChange n v fd)
    = (if decide (m = n) then handleInputChange m w fd
       else handleInputChange n v (handleInputChange m w fd)).
Proof.
  split; [apply get_set|]. split; [reflexivity|].
  unfold handleInputChange.
  generalize (or_zero (parseFloat v)) (or_zero (parseFloat w)). intros x y.
  destruct n, m; reflexivity.
Qed.

Lemma positive_or_zero x : negb (le (or_zero x) zero) = lt zero x.
Proof. by destruct x as [s|[]| |[] m e]. Qed.

(** X2. Once a text is typed as the income, validation passes exactly when
    [parseFloat] reads a number above 0 from it: an empty text, a text that
    is no number, 0 and a negative number are all refused, with the message
    under [income]. *)
Theorem typed_income_validates (t : string -> string -> string) (value : string)
    (st : State) :
  let st' := setFormData (handleInputChange n_income value) st in
  result_of (validateForm t) st' = lt zero (parseFloat value) /\
  income_label (state_after (validateForm t) st')
    = (if lt zero (parseFloat value) then None else Some (Some (income_required t))).
Proof.
  intros st'. rewrite validateForm_result. unfold income_label.
  rewrite validateForm_errors, newErrors_lookup.
  change (income (formData st')) with (or_zero (parseFloat value)).
  rewrite <- positive_or_zero.
  destruct (le (or_zero (parseFloat value)) zero); split; reflexivity.
Qed.

(** X3. Removing the entry that [addCustomCategory] has just appended gives
    the form back, and [removeCustomCategory] at an index beyond the list
    changes nothing. *)
Theorem removeCustomCategory_round_trip (fd : FormData) (k : nat) :
  removeCustomCategory (length (custom_categories fd)) (addCustomCategory fd) = fd /\
  removeCustomCategory (length (custom_categories fd) + k) fd = fd.
Proof.
  unfold removeCustomCategory, addCustomCategory. simpl.
  rewrite !Array_filter_delete. split.
  - rewrite delete_take_drop, take_app_length, drop_ge
      by (rewrite length_app; simpl; lia).
    rewrite app_nil_r. symmetry. apply FormData_eta.
  - rewrite delete_take_drop, take_ge, drop_ge by lia.
    rewrite app_nil_r. symmetry. apply FormData_eta.
Qed.

Lemma rows_indices fd :
  (custom_category_rows fd).*1 = seq 0 (length (custom_categories fd)).
Proof.
  unfold custom_category_rows. rewrite fmap_imap.
  rewrite <- (list_fmap_id (seq 0 _)). apply (imap_seq_0 _ id).
Qed.

(** X4. The handlers that the page binds to a row of the custom
    categories are bound to an index of the list: the change of a row does
    not throw and leaves the rows at their indices, and the removal of a row
    makes the list one entry shorter. *)
Theorem rendered_rows_in_range (fd : FormData) (index : nat) (cat : CustomCategory)
    (field : CategoryField) (value : string) :
  (index, cat) ∈ custom_category_rows fd ->
  custom_categories fd !! index = Some cat /\
  (exists fd', handleCustomCategoryChange index field value fd = Normal fd' /\
               (custom_category_rows fd').*1 = (custom_category_rows fd).*1) /\
  S (length (custom_categories (removeCustomCategory index fd)))
    = length (custom_categories fd).
Proof.
  intros (i & c & [= -> ->] & Hi)%elem_of_lookup_imap.
  split; [exact Hi|]. split.
  - unfold handleCustomCategoryChange. rewrite Hi. eexists. split; [reflexivity|].
    rewrite !rows_indices. simpl. by rewrite length_insert.
  - unfold removeCustomCategory. simpl. rewrite Array_filter_delete.
    rewrite length_delete by eauto. apply lookup_lt_Some in Hi. lia.
Qed.

Lemma rendered_rows_in_range_witness :
  let fd := addCustomCategory (addCustomCategory initialFormData) in
  let cat := {| name := EmptyString; amount := zero |} in
  (1, cat) ∈ custom_category_rows fd /\
  custom_categories fd !! 1 = Some cat.
Proof.
  split.
  - apply list_elem_of_lookup. exists 1. reflexivity.
  - apply (rendered_rows_in_range
             (addCustomCategory (addCustomCategory initialFormData)) 1
             {| name := EmptyString; amount := zero |} f_name "Rent").
    apply list_elem_of_lookup. exists 1. reflexivity.
Defined.

Lemma assign_assign f g v w cat :
  assign g w (assign f v cat)
  = if decide (f = g) then assign g w cat else assign f v (assign g w cat).
Proof. by destruct f, g. Qed.

(** X5. Two changes of custom categories, one after the other: of two
    changes of the same field of the same entry the later one stands; any
    other two give the same form in either order, and throw in either order
    when one of them throws. *)
Theorem category_changes_compose (i j : nat) (f g : CategoryField) (v w : string)
    (fd : FormData) :
  (fd' ← handleCustomCategoryChange i f v fd; handleCustomCategoryChange j g w fd')
  = if decide (i = j /\ f = g) then handleCustomCategoryChange j g w fd
    else fd' ← handleCustomCategoryChange j g w fd; handleCustomCategoryChange i f v fd'.
Proof.
  unfold handleCustomCategoryChange, mbind, Completion_bind.
  set (l := custom_categories fd).
  destruct (decide (i = j)) as [->|Hij].
  - destruct (l !! j) as [c|] eqn:Hj; simpl; [|by case_decide].
    pose proof (lookup_lt_Some _ _ _ Hj) as Hlt.
    rewrite !list_lookup_insert_eq by done. rewrite !list_insert_insert_eq.
    rewrite (assign_assign f g). unfold set_custom_categories. simpl.
    destruct (decide (f = g)) as [->|Hfg].
    + rewrite decide_True by done. reflexivity.
    + rewrite decide_False by tauto. reflexivity.
  - rewrite decide_False by tauto.
    destruct (l !! i) as [ci|] eqn:Hi, (l !! j) as [cj|] eqn:Hj; simpl;
      rewrite ?list_lookup_insert_ne by congruence; rewrite ?Hi, ?Hj; try reflexivity.
    unfold set_custom_categories. simpl.
    by rewrite list_insert_insert_ne by congruence.
Qed.

Lemma positive_numeric x : isNaN x = false -> negb (le x zero) = lt zero x.
Proof. by destruct x as [s|[]| |[] m e]. Qed.

(** X6. In a form that the handlers lead to from the initial one, no
    amount is NaN, and [validateForm] passes exactly when the income is
    above 0. *)
Theorem reachable_forms_validate (t : string -> string -> string) (st : State) :
  reachable (formData st) ->
  numeric (formData st) /\
  result_of (validateForm t) st = lt zero (income (formData st)).
Proof.
  intros Hreach%reachable_numeric. split; [exact Hreach|].
  rewrite validateForm_result. apply positive_numeric.
  destruct Hreach as [Hn _]. apply (Hn n_income).
Qed.

Lemma reachable_forms_validate_witness :
  let st := setFormData (fun fd => addCustomCategory (handleInputChange n_income "1000" fd))
              initialState in
  reachable (formData st) /\
  result_of (validateForm (fun _ d => d)) st = true.
Proof.
  split.
  - apply reach_add, reach_input, reach_initial.
  - apply (reachable_forms_validate (fun _ d => d)
             (setFormData (fun fd => addCustomCategory
                                       (handleInputChange n_income "1000" fd))
                initialState)).
    apply reach_add, reach_input, reach_initial.
Defined.

(** X7. [handleSubmit] posts the form data once when the validation
    passes and makes no call otherwise; it goes to the dashboard after the
    post, and only when the server reports success. *)
Theorem handleSubmit_trace t server (st : State) :
  trace_of (handleSubmit t server) st =
    if result_of (validateForm t) st then
      call_postBudget (formData st) ::
        match server (formData st) with
        | Fulfilled (Some response) =>
            if success response then [call_history_push "/budget/dashboard"] else []
        | _ => []
        end
    else [].
Proof.
  rewrite validateForm_result. unfold trace_of. rewrite handleSubmit_run.
  destruct (le (income (formData st)) zero); simpl; [reflexivity|].
  destruct (server (formData st)) as [[response|]|]; try reflexivity.
  destruct (success response); reflexivity.
Qed.

(** X8. What a submit leaves on the page. The form data are never changed,
    also not after a success. Under the income stands the required-income
    message when the validation fails, the first message that the server
    sends for [income] when it refuses the form, and nothing otherwise. The
    alert opens with the success message after a success and with the error
    message when the call throws, and is left as it was otherwise. *)
Theorem handleSubmit_feedback t server (st : State) :
  let st' := state_after (handleSubmit t server) st in
  formData st' = formData st /\
  income_label st' =
    (if result_of (validateForm t) st then
       match server (formData st) with
       | Fulfilled (Some response) =>
           if success response then None
           else head <$> (default ∅ (response_errors response) !! "income"%string)
       | _ => None
       end
     else Some (Some (income_required t))) /\
  (showAlert st', alertMessage st') =
    (if result_of (validateForm t) st then
       match server (formData st) with
       | Fulfilled (Some response) =>
           if success response
           then (true, t "budget_created_success" "Budget created successfully!")
           else (showAlert st, alertMessage st)
       | _ => (true, t "budget_create_error" "Error creating budget. Please try again.")
       end
     else (showAlert st, alertMessage st)).
Proof.
  intros st'. unfold st', state_after, income_label. clear st'.
  rewrite validateForm_result, handleSubmit_run.
  destruct (le (income (formData st)) zero) eqn:Hle; simpl.
  - repeat split. rewrite newErrors_lookup, Hle. reflexivity.
  - destruct (server (formData st)) as [[response|]|]; simpl;
      [destruct (success response); simpl| |];
      repeat split; rewrite ?newErrors_lookup, ?Hle; reflexivity.
Qed.

End BudgetNewExtra.

(** ** The budget list: loading, deleting, exporting and the page *)

Module BudgetManageExtra.
Import React BudgetManage BudgetManageFacts.

(** whether the server reports the delete of [budgetId] as a success *)
Lemma budgets_after_delete t server budgetId st :
  budgets (state_after (handleDelete t server budgetId) st) =
    match server budgetId with
    | Fulfilled (Some {| success := true |}) =>
        filter (fun b => id b <> budgetId) (budgets st)
    | _ => budgets st
    end.
Proof.
  unfold state_after. rewrite handleDelete_run.
  by destruct (server budgetId) as [[[[]]|]|].
Qed.

Lemma filter_all {A} (P : A -> Prop) `{forall x, Decision (P x)} (l : list A) :
  filter P l = l <-> Forall P l.
Proof.
  split.
  - intros Heq. apply Forall_forall. intros x Hx. rewrite <- Heq in Hx.
    by apply list_elem_of_filter in Hx as [HP _].
  - induction 1 as [|x r HP _ IH]; [reflexivity|].
    rewrite filter_cons_True by done. by rewrite IH.
Qed.

(** X9. [handleDelete] calls [deleteBudget] once, with the id it was
    given. After a success the alert opens with the message of the deletion;
    after a call that throws it opens with the error message and the list is
    the one it was; a response that reports no success leaves the whole page
    as it was, without any message. *)
Theorem handleDelete_feedback t server (budgetId : string) (st : State) :
  let st' := state_after (handleDelete t server budgetId) st in
  trace_of (handleDelete t server budgetId) st = [call_deleteBudget budgetId] /\
  loading st' = loading st /\
  match server budgetId with
  | Fulfilled (Some response) =>
      if success response
      then showAlert st' = true /\
           alertMessage st' = t "budget_deleted" "Budget deleted successfully!"
      else st' = st
  | _ => showAlert st' = true /\
         alertMessage st' = t "budget_delete_error" "Error deleting budget" /\
         budgets st' = budgets st
  end.
Proof.
  intros st'. unfold st', state_after, trace_of. clear st'.
  rewrite handleDelete_run.
  destruct (server budgetId) as [[response|]|]; [destruct (success response)| |];
    simpl; repeat split.
Qed.

Lemma budgets_after_delete_succeeded t server budgetId st :
  budgets (state_after (handleDelete t server budgetId) st) =
    if succeeded (server budgetId)
    then filter (fun b => id b <> budgetId) (budgets st)
    else budgets st.
Proof.
  rewrite budgets_after_delete. by destruct (server budgetId) as [[[[]]|]|].
Qed.

(** X10. Two calls of [handleDelete], each with the answer that the server
    gives to it. Two deletes of one id leave the list without the entries of
    that id as soon as one of the two succeeds, and as it was when neither
    does: once a delete has succeeded, a further delete of the id changes the
    list no more. Deletes of two ids give the same list in either order. One
    delete leaves the list as it was exactly when it does not succeed or no
    entry has the id. *)
Theorem deletes_compose t first second (a b : string) (st : State) :
  let deleted server x s := state_after (handleDelete t server x) s in
  budgets (deleted second a (deleted first a st)) =
    (if succeeded (first a) || succeeded (second a)
     then filter (fun x => id x <> a) (budgets st)
     else budgets st) /\
  budgets (deleted second b (deleted first a st))
    = budgets (deleted first a (deleted second b st)) /\
  (budgets (deleted first a st) = budgets st <->
   succeeded (first a) = false \/ a ∉ id <$> budgets st).
Proof.
  intros deleted. unfold deleted. clear deleted.
  rewrite !budgets_after_delete_succeeded.
  split; [|split].
  - destruct (succeeded (first a)), (succeeded (second a)); simpl; try reflexivity.
    rewrite list_filter_filter. apply list_filter_iff. tauto.
  - destruct (succeeded (first a)), (succeeded (second b)); try reflexivity.
    rewrite !list_filter_filter. apply list_filter_iff. tauto.
  - destruct (succeeded (first a)); [|by split; [left|]].
    rewrite filter_all, Forall_forall. split.
    + intros Hall. right. intros (x & -> & Hx)%list_elem_of_fmap. by apply (Hall x).
    + intros [Hfalse|Hnot]; [discriminate|].
      intros x Hx <-. apply Hnot, list_elem_of_fmap. eauto.
Qed.

Lemma filter_unique_id (l : list Budget) i b :
  NoDup (id <$> l) -> l !! i = Some b ->
  filter (fun x => id x <> id b) l = delete i l.
Proof.
  revert i. induction l as [|x r IH]; intros i Hnodup Hi; [done|].
  rewrite fmap_cons in Hnodup. apply NoDup_cons in Hnodup as [Hx Hr].
  destruct i as [|i]; simpl in Hi.
  - injection Hi as ->. rewrite filter_cons_False by tauto. simpl.
    apply filter_all, Forall_forall. intros y Hy Heq.
    apply Hx. rewrite <- Heq. apply list_elem_of_fmap. eauto.
  - rewrite filter_cons_True.
    + simpl. f_equal. by apply IH.
    + intros Heq. apply Hx. rewrite Heq. apply list_elem_of_fmap.
      exists b. split; [done|]. by eapply list_elem_of_lookup_2.
Qed.

(** X11. When no two budgets of the list have the same id, the delete
    button of a row, once the server reports success, takes that row out of
    the list and no other. *)
Theorem delete_button_removes_its_row t server (st : State) (i : nat) (b : Budget) :
  NoDup (id <$> budgets st) ->
  budgets st !! i = Some b ->
  server (id b) = Fulfilled (Some {| success := true |}) ->
  budgets (state_after (handleDelete t server (id b)) st) = delete i (budgets st).
Proof.
  intros Hnodup Hi Hok. rewrite budgets_after_delete, Hok.
  by apply filter_unique_id.
Qed.

Lemma delete_button_removes_its_row_witness :
  let b1 := {| id := "b1"; created_at := "2024-01-01" |} in
  let b2 := {| id := "b2"; created_at := "2024-02-01" |} in
  let st := setBudgets (fun _ => [b1; b2]) initialState in
  let server := fun _ : string => Fulfilled (Some {| success := true |}) in
  NoDup (id <$> budgets st) /\
  budgets (state_after (handleDelete (fun _ d => d) server "b2") st) = [b1].
Proof.
  split.
  - repeat constructor; intros H; repeat (apply elem_of_cons in H as [H|H]; [discriminate|]);
      by apply not_elem_of_nil in H.
  - apply (delete_button_removes_its_row (fun _ d => d)
             (fun _ => Fulfilled (Some {| success := true |}))
             (setBudgets (fun _ => [ {| id := "b1"; created_at := "2024-01-01" |};
                                     {| id := "b2"; created_at := "2024-02-01" |} ])
                initialState)
             1 {| id := "b2"; created_at := "2024-02-01" |}).
    + repeat constructor; intros H;
        repeat (apply elem_of_cons in H as [H|H]; [discriminate|]);
        by apply not_elem_of_nil in H.
    + reflexivity.
    + reflexivity.
Defined.

Lemma fetchBudgets_run t srv st :
  React.run (fetchBudgets t srv) st =
    match srv with
    | Fulfilled (Some data) =>
        (tt, (setLoading false (setBudgets (fun _ => default [] (data_budgets data)) st),
              [call_getBudgets]))
    | _ =>
        (tt, (setLoading false
                (setShowAlert true
                   (setAlertMessage (t "budget_fetch_error" "Error fetching budgets") st)),
              [call_getBudgets]))
    end.
Proof. by destruct srv as [[data|]|]. Qed.

(** X12. Loading the list. [fetchBudgets] calls [getBudgets] once and always
    ends the loading state. With a payload, the list becomes the payload's
    budgets, the empty list when the payload has none, and no alert is
    raised. When the call throws (a rejected request, a payload that is
    [null]) the list is left as it was and the alert opens with the error
    message: on a page just mounted, that shows the empty state. *)
Theorem fetchBudgets_outcome t srv (st : State) :
  let st' := state_after (fetchBudgets t srv) st in
  trace_of (fetchBudgets t srv) st = [call_getBudgets] /\
  loading st' = false /\
  match srv with
  | Fulfilled (Some data) =>
      budgets st' = default [] (data_budgets data) /\
      showAlert st' = showAlert st /\ alertMessage st' = alertMessage st
  | _ =>
      budgets st' = budgets st /\
      showAlert st' = true /\
      alertMessage st' = t "budget_fetch_error" "Error fetching budgets" /\
      render (state_after (fetchBudgets t srv) initialState)
        = Page EmptyState (Some (t "budget_fetch_error" "Error fetching budgets"))
  end.
Proof.
  intros st'. unfold st', state_after, trace_of. clear st'.
  rewrite !fetchBudgets_run. destruct srv as [[data|]|]; simpl; repeat split.
Qed.

Lemma row_numbers (l : list Budget) k :
  number <$> imap (fun index budget =>
                     {| number := k + index + 1; label_date := created_at budget;
                        key := id budget |}) l
  = seq (S k) (length l).
Proof.
  revert k. induction l as [|b r IH]; intros k; [reflexivity|].
  rewrite imap_cons, fmap_cons. simpl. f_equal; [lia|].
  rewrite <- IH. f_equal. apply imap_ext. intros i x _. simpl. f_equal. lia.
Qed.

(** X13. What the page shows. While loading, the loading text only. After
    that, the empty state exactly when the list is empty; otherwise the
    count of the budgets and one row per budget, in the order of the list,
    keyed by the id of the budget and numbered 1, 2, ... by position, so the
    rows after a deleted one move up by one number. *)
Theorem render_rows (st : State) :
  match render st with
  | Loading => loading st = true
  | Page EmptyState alert =>
      loading st = false /\ budgets st = [] /\
      alert = (if showAlert st then Some (alertMessage st) else None)
  | Page (BudgetList count rows) alert =>
      loading st = false /\
      count = length (budgets st) /\ 0 < count /\
      number <$> rows = seq 1 count /\
      key <$> rows = id <$> budgets st /\
      label_date <$> rows = created_at <$> budgets st /\
      alert = (if showAlert st then Some (alertMessage st) else None)
  end.
Proof.
  unfold render. destruct (loading st); [reflexivity|].
  destruct (budgets st) as [|b r] eqn:E; simpl; [done|].
  split; [done|]. split; [done|]. split; [lia|]. split; [|split; [|split; [|done]]].
  - f_equal. rewrite <- (row_numbers r 1). f_equal.
  - f_equal. rewrite fmap_imap. apply (imap_const id).
  - f_equal. rewrite fmap_imap. apply (imap_const created_at).
Qed.

Lemma handleExportPdf_run t srv type budgetId st :
  React.run (handleExportPdf t srv type budgetId) st =
    match srv type budgetId with
    | Fulfilled _ => (tt, (st, [call_exportBudgetPdf type budgetId]))
    | Rejected =>
        (tt, (setShowAlert true
                (setAlertMessage (t "budget_pdf_error" "Error generating PDF") st),
              [call_exportBudgetPdf type budgetId]))
    end.
Proof.
  unfold React.run, handleExportPdf, exportBudgetPdf.
  unfold mbind, handler_bind, mret, handler_ret, React.bind, React.ret, emit, setState.
  simpl. by destruct (srv type budgetId).
Qed.

(** X14. [handleExportPdf] calls [exportBudgetPdf] once, with the type and
    the id it was given, and never touches the list. When the call answers,
    the page is left exactly as it was: the blob is not used. When it
    throws, the alert opens with the message of the PDF error. *)
Theorem handleExportPdf_outcome t srv (type : ExportType) (budgetId : option string)
    (st : State) :
  let st' := state_after (handleExportPdf t srv type budgetId) st in
  trace_of (handleExportPdf t srv type budgetId) st
    = [call_exportBudgetPdf type budgetId] /\
  budgets st' = budgets st /\
  loading st' = loading st /\
  match srv type budgetId with
  | Fulfilled _ => st' = st
  | Rejected =>
      showAlert st' = true /\
      alertMessage st' = t "budget_pdf_error" "Error generating PDF"
  end.
Proof.
  intros st'. unfold st', state_after, trace_of. clear st'.
  rewrite handleExportPdf_run. destruct (srv type budgetId); simpl; repeat split.
Qed.

End BudgetManageExtra.


(** ** The dashboard: what is shown after the fetch *)

Module BudgetDashboardExtra.
Import React BudgetDashboard BudgetDashboardFacts.

Lemma truthy_spec s : truthy s = true <-> s <> EmptyString.
Proof.
  unfold truthy. destruct (String.eqb_spec s EmptyString); simpl; split; congruence.
Qed.

Lemma fetchData_run t srv st :
  React.run (fetchData t srv) st =
    match srv with
    | Fulfilled data =>
        (tt, (setLoading false (setDashboardData data st), [call_getBudgetDashboard]))
    | Rejected =>
        (tt, (setLoading false
                (setError (t "budget_fetch_error" "Error fetching dashboard data") st),
              [call_getBudgetDashboard]))
    end.
Proof. by destruct srv. Qed.

(** X15. The dashboard after its fetch. [fetchData] calls
    [getBudgetDashboard] once and ends the loading state. With a payload the
    page shows the overview when the latest budget has an id, and the card
    without data otherwise; a payload that is [null] makes the render throw.
    After a rejected request the page shows the error message, and the
    render throws when that message is the empty text. *)
Theorem dashboard_after_fetch t srv :
  let st := state_after (fetchData t srv) initialState in
  trace_of (fetchData t srv) initialState = [call_getBudgetDashboard] /\
  loading st = false /\
  render st =
    match srv with
    | Fulfilled (Some d) =>
        let latest := default empty_object (latest_budget d) in
        if truthy_opt (id latest)
        then Normal (Overview latest (default [] (categories d)) (default [] (budgets d)))
        else Normal NoData
    | Fulfilled None => TypeError
    | Rejected =>
        let message := t "budget_fetch_error" "Error fetching dashboard data" in
        if truthy message then Normal (ErrorText message) else TypeError
    end.
Proof.
  intros st. unfold st, state_after, trace_of. clear st.
  rewrite fetchData_run. destruct srv as [[d|]|]; simpl; repeat split.
Qed.

(** X16. The page shows the overview only of a latest budget with an id
    that is not empty, on a page that is not loading and has no error; the
    chart and the history are then those of the payload. A payload whose
    latest budget is missing, or has no id, shows no history, whatever
    budgets it carries. *)
Theorem overview_needs_latest_id (st : State) (b : Budget) (chart : list Category)
    (hist : list Budget) :
  render st = Normal (Overview b chart hist) ->
  loading st = false /\ error st = EmptyString /\
  exists d s,
    dashboardData st = Some d /\ latest_budget d = Some b /\
    id b = Some s /\ s <> EmptyString /\
    chart = default [] (categories d) /\ hist = default [] (budgets d).
Proof.
  unfold render. destruct (loading st); [discriminate|].
  destruct (truthy (error st)) eqn:Herr; [discriminate|].
  destruct (dashboardData st) as [d|]; [|discriminate].
  destruct (latest_budget d) as [latest|] eqn:Hlatest; simpl; [|discriminate].
  destruct (id latest) as [s|] eqn:Hs; simpl; [|discriminate].
  destruct (truthy s) eqn:Hid; [|discriminate].
  intros [= <- <- <-]. split; [done|]. split.
  { destruct (String.eqb_spec (error st) EmptyString) as [E|E]; [exact E|].
    apply truthy_spec in E. congruence. }
  exists d, s. split; [done|]. split; [done|]. split; [done|].
  split; [by apply truthy_spec|]. by split.
Qed.

Lemma overview_needs_latest_id_witness :
  let b := {| id := Some "b7"%string; income := None; created_at := None;
              total_expenses := None |} in
  let d := {| latest_budget := Some b; categories := None; budgets := Some [b];
              insights := None; tips := None |} in
  let st := {| dashboardData := Some d; loading := false; error := EmptyString |} in
  render st = Normal (Overview b [] [b]) /\ loading st = false.
Proof.
  split; [reflexivity|].
  apply (overview_needs_latest_id
           {| dashboardData :=
                Some {| latest_budget :=
                          Some {| id := Some "b7"%string; income := None;
                                  created_at := None; total_expenses := None |};
                        categories := None;
                        budgets := Some [ {| id := Some "b7"%string; income := None;
                                             created_at := None;
                                             total_expenses := None |} ];
                        insights := None; tips := None |};
              loading := false; error := EmptyString |}
           {| id := Some "b7"%string; income := None; created_at := None;
              total_expenses := None |}
           []
           [ {| id := Some "b7"%string; income := None; created_at := None;
                total_expenses := None |} ]).
  reflexivity.
Defined.

End BudgetDashboardExtra.

(** ** The objects behind the custom categories *)

Module AliasingExtra.
Import Number React BudgetNew AliasingFacts.

(** X17. The handlers on values describe the handlers on objects. When a
    store holds the custom categories of a form (each entry its own object),
    it still does after each handler has run on both: after a change of an
    input, after [addCustomCategory], after [removeCustomCategory], and after
    [handleCustomCategoryChange], which throws on the one exactly when it
    throws on the other. The assignment into the object at an index thus
    shows at no other index. *)
Theorem objects_simulate_values (s : Aliasing.Store) (fd : FormData) (n : InputName)
    (text : string) (index : nat) (field : CategoryField) (value : string) :
  Aliasing.holds s fd ->
  Aliasing.holds s (handleInputChange n text fd) /\
  Aliasing.holds (Aliasing.addCustomCategory s) (addCustomCategory fd) /\
  Aliasing.holds (Aliasing.removeCustomCategory index s) (removeCustomCategory index fd) /\
  match Aliasing.handleCustomCategoryChange index field value s,
        handleCustomCategoryChange index field value fd with
  | Normal s', Normal fd' => Aliasing.holds s' fd'
  | TypeError, TypeError => True
  | _, _ => False
  end.
Proof.
  intros H. split; [by apply holds_handleInputChange|].
  split; [by apply holds_addCustomCategory|].
  split; [by apply holds_removeCustomCategory|].
  by apply holds_handleCustomCategoryChange.
Qed.

Lemma objects_simulate_values_witness :
  Aliasing.holds Aliasing.initialStore initialFormData /\
  Aliasing.holds (Aliasing.addCustomCategory Aliasing.initialStore)
    (addCustomCategory initialFormData).
Proof.
  split; [apply holds_initial|].
  apply (objects_simulate_values Aliasing.initialStore initialFormData
           n_income "1000" 0 f_name "Rent").
  apply holds_initial.
Defined.

Lemma assignment_shows_in_previous_array_witness :
  let cat := {| name := EmptyString; amount := zero |} in
  let s := {| Aliasing.heap := {[ 1%positive := cat ]};
              Aliasing.array := [1%positive] |} in
  Aliasing.array s !! 0 = Some 1%positive /\
  is_Some (Aliasing.heap s !! 1%positive) /\
  match Aliasing.handleCustomCategoryChange 0 f_name "Rent" s with
  | Normal s' =>
      Aliasing.contents (Aliasing.heap s') (Aliasing.array s) !! 0
      = Some (assign f_name "Rent" (Aliasing.heap s !!! 1%positive))
  | TypeError => False
  end.
Proof.
  split; [reflexivity|]. split; [by eexists|].
  apply (assignment_shows_in_previous_array
           {| Aliasing.heap := {[ 1%positive := {| name := EmptyString; amount := zero |} ]};
              Aliasing.array := [1%positive] |}
           0 f_name "Rent" 1%positive).
  - reflexivity.
  - by eexists.
Defined.

End AliasingExtra.
